(** * monty.dev: deprecation marker, dependency guard, traceback hook

    A shallow embedding of [src/monty/dev.py].  Python text is a [string]
    (one [ascii] per code point, code points below 256), dictionaries are
    [gmap]s, mutable objects live in an explicit store, and code that can
    raise returns an [outcome]. *)

From Stdlib Require Import ZArith Ascii String List Bool Lia.
From stdpp Require Import base option gmap strings list fin_maps.

Local Open Scope string_scope.
Local Open Scope Z_scope.

(** ** Python exceptions and warnings *)

(** Warning categories, the [Type[Warning]] argument of [warnings.warn]. *)
Inductive warning_category :=
| UserWarning
| DeprecationWarning
| PendingDeprecationWarning
| FutureWarning
| CustomWarning (name : string).

(** Exception classes that the module raises, catches, or is handed. *)
Inductive exc_class :=
| TypeError
| ValueError
| OverflowError
| RuntimeError
| ImportError
| FileNotFoundError
| PermissionError
| NotADirectoryError
| CalledProcessError
| WarningClass (c : warning_category)
| CustomError (name : string).

Record exception := Exception { exc_type : exc_class; exc_msg : string }.

Inductive outcome (A : Type) :=
| Return (a : A)
| Raise (e : exception).
Arguments Return {A} a.
Arguments Raise {A} e.

#[global] Instance warning_category_eq_dec : EqDecision warning_category.
Proof. solve_decision. Defined.
#[global] Instance exc_class_eq_dec : EqDecision exc_class.
Proof. solve_decision. Defined.

(** ** Python [str] methods used by the module *)

Module PyStr.

Definition code (c : ascii) : N := N_of_ascii c.

(** [c in chars] for a one-character [c]. *)
Fixpoint mem (c : ascii) (chars : string) : bool :=
  match chars with
  | EmptyString => false
  | String d rest => if Ascii.eqb c d then true else mem c rest
  end.

(** [str.isspace] on one code point below 256. *)
Definition isspace (c : ascii) : bool :=
  let n := code c in
  ((9 <=? n) && (n <=? 13) || (28 <=? n) && (n <=? 32)
   || (n =? 133) || (n =? 160))%N.

(** Strip from the left while the predicate holds. *)
Fixpoint lstrip_by (p : ascii -> bool) (s : string) : string :=
  match s with
  | EmptyString => EmptyString
  | String c rest => if p c then lstrip_by p rest else s
  end.

(** Strip from the right while the predicate holds. *)
Fixpoint rstrip_by (p : ascii -> bool) (s : string) : string :=
  match s with
  | EmptyString => EmptyString
  | String c rest =>
      match rstrip_by p rest with
      | EmptyString => if p c then EmptyString else String c EmptyString
      | r => String c r
      end
  end.

(** [s.lstrip(chars)]: [chars] is a set of characters, not a prefix. *)
Definition lstrip (chars : string) (s : string) : string :=
  lstrip_by (fun c => mem c chars) s.

(** [s.rstrip(chars)]: [chars] is a set of characters, not a suffix. *)
Definition rstrip (chars : string) (s : string) : string :=
  rstrip_by (fun c => mem c chars) s.

(** [s.strip()]: whitespace on both ends. *)
Definition strip (s : string) : string :=
  rstrip_by isspace (lstrip_by isspace s).

(** [s.lower()] on ASCII letters. *)
Definition lower_char (c : ascii) : ascii :=
  let n := code c in
  if ((65 <=? n) && (n <=? 90))%N then ascii_of_N (n + 32) else c.

Fixpoint lower (s : string) : string :=
  match s with
  | EmptyString => EmptyString
  | String c rest => String (lower_char c) (lower rest)
  end.

(** Truthiness of a [str]: non-empty. *)
Definition truthy (s : string) : bool :=
  match s with EmptyString => false | _ => true end.

Definition newline : string := String (ascii_of_N 10) EmptyString.

End PyStr.

(** ** [datetime.datetime] *)

Module Datetime.

Record datetime := mk_datetime {
  year : Z; month : Z; day : Z;
  hour : Z; minute : Z; second : Z; microsecond : Z
}.

Definition MINYEAR : Z := 1.
Definition MAXYEAR : Z := 9999.

Definition is_leap (y : Z) : bool :=
  (y mod 4 =? 0) && (negb (y mod 100 =? 0) || (y mod 400 =? 0)).

Definition days_in_month (y m : Z) : Z :=
  if m =? 2 then (if is_leap y then 29 else 28)
  else if (m =? 4) || (m =? 6) || (m =? 9) || (m =? 11) then 30
  else 31.

(** An [int] argument of the constructor is read into a C [int]: an
    [OverflowError] when it does not fit one ([long] has 64 bits here,
    [int] 32). *)
Definition c_int (n : Z) : outcome Z :=
  if negb ((- 2 ^ 63 <=? n) && (n <? 2 ^ 63)) then
    Raise (Exception OverflowError "Python int too large to convert to C long")
  else if 2 ^ 31 <=? n then
    Raise (Exception OverflowError "signed integer is greater than maximum")
  else if n <? - 2 ^ 31 then
    Raise (Exception OverflowError "signed integer is less than minimum")
  else Return n.

(** The three arguments are read first, in their order; then the ranges
    are checked: [ValueError] when the triple is not a calendar date. *)
Definition check_ymd (y m d : Z) : outcome datetime :=
  if negb ((MINYEAR <=? y) && (y <=? MAXYEAR)) then
    Raise (Exception ValueError "year is out of range")
  else if negb ((1 <=? m) && (m <=? 12)) then
    Raise (Exception ValueError "month must be in 1..12")
  else if negb ((1 <=? d) && (d <=? days_in_month y m)) then
    Raise (Exception ValueError "day is out of range for month")
  else Return (mk_datetime y m d 0 0 0 0).

(** [datetime(y, m, d)]: midnight of that day. *)
Definition datetime_ymd (ymd : Z * Z * Z) : outcome datetime :=
  let '(y, m, d) := ymd in
  match c_int y, c_int m, c_int d with
  | Return y, Return m, Return d => check_ymd y m d
  | Raise e, _, _ | Return _, Raise e, _ | Return _, Return _, Raise e =>
      Raise e
  end.

Definition fields (t : datetime) : list Z :=
  [year t; month t; day t; hour t; minute t; second t; microsecond t].

(** Lexicographic [a > b] on the field lists. *)
Fixpoint list_gt (a b : list Z) : bool :=
  match a, b with
  | x :: a', y :: b' => if x =? y then list_gt a' b' else y <? x
  | _, _ => false
  end.

(** [a > b] on naive datetimes. *)
Definition gt (a b : datetime) : bool := list_gt (fields a) (fields b).

Definition digit (n : Z) : ascii := ascii_of_N (48 + Z.to_N (n mod 10)).

Definition pad2 (n : Z) : string :=
  String (digit (n / 10)) (String (digit n) EmptyString).

Definition pad4 (n : Z) : string :=
  String (digit (n / 1000)) (String (digit (n / 100)) (pad2 n)).

(** [format(t, "%Y-%m-%d")]. *)
Definition strftime_Ymd (t : datetime) : string :=
  pad4 (year t) +:+ "-" +:+ pad2 (month t) +:+ "-" +:+ pad2 (day t).

End Datetime.
Export Datetime.

(** ** Values, objects and the store *)

Inductive value :=
| VNone
| VBool (b : bool)
| VInt (n : Z)
| VStr (s : string)
| VObj (id : positive)
| VClass (cls : positive).

(** The positional and keyword arguments of a call. *)
Record args := Args {
  positional : list value;
  keywords : list (string * value)
}.

(** An instance: its class and its attribute dictionary. *)
Record instance := Instance {
  inst_class : positive;
  inst_dict : gmap string value
}.

(** One [warnings.warn(msg, category=...)] call. *)
Record warning := Warning { w_category : warning_category; w_message : string }.

(** What [craft_message] reads from a function or class: [__name__] and
    [__module__]. *)
Record named := Named { __name__ : string; __module__ : string }.

(** A replacement as [craft_message] distinguishes it. *)
Inductive pyobj :=
| Callable (r : named)
| Property (fget : named)
| Classmethod (__func__ : named)
| Staticmethod (__func__ : named).

(** The variables [deprecated] leaves in the scope of its inner functions. *)
Record closure := Closure {
  replacement : option pyobj;
  message : string;
  _deadline : option datetime;
  category : warning_category
}.

(** A [requires] instance. *)
Record requires := Requires {
  self_condition : bool;
  self_message : string;
  self_err_cls : exc_class
}.

(** The body of a function written by the user of the module: it sees its
    arguments and the instances, and may emit warnings of its own. *)
Definition body : Type :=
  args -> gmap positive instance ->
  outcome value * gmap positive instance * list warning.

(** What a class attribute that is called can be.  [Prim] is a function
    written by the user; [wrapped], [new_init] and [decorated] are the three
    closures the module creates, with the variables they capture;
    [object___init__] and [object___new__] are the two methods every class
    inherits from [object] (no functions for [inspect.isfunction], and so
    never a target of the decorator). *)
Inductive func :=
| Prim (name module : string) (code : body)
| wrapped (cl : closure) (old : func)
| new_init (cl : closure) (cls : positive) (original_init : func)
| decorated (self : requires) (_callable : func)
| object___init__
| object___new__.

Inductive attr :=
| AFunc (f : func)
| AValue (v : value).

(** A class created by a class statement. [c_mro] is [__mro__] without the
    class itself at its head and without the final [object]. *)
Record pyclass := PyClass {
  c_name : string;
  c_module : string;
  c_mro : list positive;
  c_dict : gmap string attr
}.

(** [sys.excepthook]. *)
Inductive tb_kind := ColorTB | VerboseTB.
Inductive excepthook :=
| DefaultHook
| UltraTB (k : tb_kind) (kwargs : list (string * value)).

Record world := World {
  instances : gmap positive instance;
  classes : gmap positive pyclass;
  warnings_log : list warning;
  sys_excepthook : excepthook
}.

(** ** State and exceptions *)

Definition M (A : Type) : Type := world -> outcome A * world.

#[global] Instance M_ret : MRet M := fun A a w => (Return a, w).
#[global] Instance M_bind : MBind M := fun A B k m w =>
  match m w with
  | (Return a, w') => k a w'
  | (Raise e, w') => (Raise e, w')
  end.
Definition raise {A} (e : exception) : M A := fun w => (Raise e, w).

(** [warnings.warn(msg, category=category)]: the warning is recorded in
    the log, whatever the filters later make of it. *)
Definition warnings_warn (msg : string) (cat : warning_category) : M unit :=
  fun w => (Return tt,
            World (instances w) (classes w)
                  (warnings_log w ++ [Warning cat msg]) (sys_excepthook w)).

(** Running a user body: the instances are threaded, its warnings appended. *)
Definition run_body (code : body) (a : args) : M value :=
  fun w => let '(r, h, ws) := code a (instances w) in
           (r, World h (classes w) (warnings_log w ++ ws) (sys_excepthook w)).

#[global] Instance outcome_ret : MRet outcome := fun A a => Return a.
#[global] Instance outcome_bind : MBind outcome := fun A B k o =>
  match o with
  | Return a => k a
  | Raise e => Raise e
  end.

Definition lift {A} (o : outcome A) : M A := fun w => (o, w).

(** ** [deprecated] *)

(** [f"{d:%Y-%m-%d}"]: formatting [None] with a format string raises. *)
Definition format_Ymd (d : option datetime) : outcome string :=
  match d with
  | Some t => Return (strftime_Ymd t)
  | None =>
      Raise (Exception TypeError
               "unsupported format string passed to NoneType.__format__")
  end.

Section deprecated_scope.

(** The variable [_deadline] of the enclosing call of [deprecated], which
    [craft_message] reads next to its own parameter [deadline]. *)
Variable _deadline' : option datetime.

Definition craft_message (old : named) (replacement : option pyobj)
    (message : string) (deadline : option datetime) : outcome string :=
  let msg := __name__ old +:+ " is deprecated" in
  msg ← (if deadline is Some _ then
           d ← format_Ymd _deadline';
           mret (msg +:+ ", and will be removed on " +:+ d +:+ PyStr.newline)
         else mret msg);
  let msg :=
    match replacement with
    | Some replacement =>
        let r := match replacement with
                 | Property fget => fget
                 | Classmethod __func__ | Staticmethod __func__ => __func__
                 | Callable r => r
                 end in
        let msg := if deadline is None then msg +:+ "; use "
                   else msg +:+ "Use " in
        msg +:+ __name__ r +:+ " in " +:+ __module__ r +:+ " instead."
    | None => msg
    end in
  mret (if PyStr.truthy message then msg +:+ PyStr.newline +:+ message
        else msg).

End deprecated_scope.

(** [f.__name__] and [f.__module__] of a function object.  The closures of
    [deprecated] carry their own names; [functools.wraps] gives [decorated]
    those of the callable it wraps. *)
Fixpoint func_named (f : func) : named :=
  match f with
  | Prim name module _ => Named name module
  | wrapped _ _ => Named "wrapped" "monty.dev"
  | new_init _ _ _ => Named "new_init" "monty.dev"
  | decorated _ _callable => func_named _callable
  | object___init__ => Named "__init__" "builtins"
  | object___new__ => Named "__new__" "builtins"
  end.

(** [cls.__name__] and [cls.__module__], read from the store.  (A reference
    to a class always denotes a class of the store; the second case only
    makes the function total.) *)
Definition class_named (cls : positive) : M named := fun w =>
  match classes w !! cls with
  | Some co => (Return (Named (c_name co) (c_module co)), w)
  | None => (Raise (Exception RuntimeError "no such class"), w)
  end.

Fixpoint kw_get (k : string) (kws : list (string * value)) : option value :=
  match kws with
  | [] => None
  | (k', v) :: rest => if String.eqb k k' then Some v else kw_get k rest
  end.

Fixpoint kw_del (k : string) (kws : list (string * value))
  : list (string * value) :=
  match kws with
  | [] => []
  | (k', v) :: rest =>
      if String.eqb k k' then kw_del k rest else (k', v) :: kw_del k rest
  end.

(** Binding the positional and keyword arguments of a call of [new_init]
    to its signature: [self], then the starred rest. *)
Definition bind_self (a : args) : outcome (value * args) :=
  match positional a with
  | self :: rest =>
      if kw_get "self" (keywords a) is Some _ then
        Raise (Exception TypeError
                 "new_init() got multiple values for argument 'self'")
      else Return (self, Args rest (keywords a))
  | [] =>
      match kw_get "self" (keywords a) with
      | Some self => Return (self, Args [] (kw_del "self" (keywords a)))
      | None =>
          Raise (Exception TypeError
                   "new_init() missing 1 required positional argument: 'self'")
      end
  end.

(** *** Classes: attribute lookup and the methods of [object] *)

(** Calling an attribute that is not a function. *)
Definition not_callable : func :=
  Prim "" "" (fun _ h =>
    (Raise (Exception TypeError "object is not callable"), h, [])).

Definition as_func (x : attr) : func :=
  match x with
  | AFunc f => f
  | AValue _ => not_callable
  end.

(** The first class of [mro] whose own dictionary has [k]. *)
Fixpoint mro_lookup (cs : gmap positive pyclass) (mro : list positive)
    (k : string) : option attr :=
  match mro with
  | [] => None
  | c :: rest =>
      match cs !! c ≫= (fun co => c_dict co !! k) with
      | Some x => Some x
      | None => mro_lookup cs rest k
      end
  end.

(** The attribute [k] of the class, looked up along its MRO; [None] when
    only [object] has it. *)
Definition getattr_mro (cs : gmap positive pyclass) (cls : positive)
    (k : string) : option attr :=
  co ← cs !! cls; mro_lookup cs (cls :: c_mro co) k.

(** [type->tp_init == object_init]: the initializer of the class is still
    the one of [object]. *)
Definition tp_init_is_object_init (cs : gmap positive pyclass)
    (cls : positive) : bool :=
  match getattr_mro cs cls "__init__" with
  | None | Some (AFunc object___init__) => true
  | Some _ => false
  end.

(** [type->tp_new == object_new]. *)
Definition tp_new_is_object_new (cs : gmap positive pyclass)
    (cls : positive) : bool :=
  match getattr_mro cs cls "__new__" with
  | None | Some (AFunc object___new__) => true
  | Some _ => false
  end.

(** [type(v)], when it is a class of the store. *)
Definition type_of (insts : gmap positive instance) (v : value)
  : option positive :=
  match v with
  | VObj id => inst_class <$> insts !! id
  | _ => None
  end.

(** A new, empty instance of the class at an unused place of the store. *)
Definition new_instance (cls : positive) (w : world) : positive * world :=
  let id := fresh (dom (instances w)) in
  (id, World (<[id := Instance cls ∅]> (instances w)) (classes w)
         (warnings_log w) (sys_excepthook w)).

(** Arguments beside the first one. *)
Definition excess_args (rest : list value) (kws : list (string * value))
  : bool :=
  match rest, kws with
  | [], [] => false
  | _, _ => true
  end.

(** [object.__init__(self, ...)].  It does nothing; further arguments are
    an error when the type has an initializer of its own, and when it has
    neither an initializer nor a [__new__] of its own.  (Values that are no
    instances of a class of the store are of built-in types, which have a
    [__new__] of their own; a class is of type [type], which has an
    initializer of its own.) *)
Definition object_init (a : args) : M value := fun w =>
  match positional a with
  | [] =>
      (Raise (Exception TypeError
                "descriptor '__init__' of 'object' object needs an argument"),
       w)
  | self :: rest =>
      if excess_args rest (keywords a) then
        match self, type_of (instances w) self with
        | VObj _, Some cls =>
            if negb (tp_init_is_object_init (classes w) cls) then
              (Raise (Exception TypeError
                        "object.__init__() takes exactly one argument (the instance to initialize)"),
               w)
            else if tp_new_is_object_new (classes w) cls then
              (Raise (Exception TypeError
                        (default "" (c_name <$> classes w !! cls)
                         +:+ ".__init__() takes exactly one argument (the instance to initialize)")),
               w)
            else (Return VNone, w)
        | VClass _, _ =>
            (Raise (Exception TypeError
                      "object.__init__() takes exactly one argument (the instance to initialize)"),
             w)
        | _, _ => (Return VNone, w)
        end
      else (Return VNone, w)
  end.

(** [object.__new__(cls, ...)].  It makes the instance; further arguments
    are an error when the type has a [__new__] of its own, and when it has
    neither a [__new__] nor an initializer of its own. *)
Definition object_new (a : args) : M value := fun w =>
  match positional a with
  | [] =>
      (Raise (Exception TypeError "object.__new__(): not enough arguments"), w)
  | VClass cls :: rest =>
      match classes w !! cls with
      | None => (Raise (Exception RuntimeError "no such class"), w)
      | Some co =>
          if excess_args rest (keywords a)
             && negb (tp_new_is_object_new (classes w) cls) then
            (Raise (Exception TypeError
                      "object.__new__() takes exactly one argument (the type to instantiate)"),
             w)
          else if excess_args rest (keywords a)
                  && tp_init_is_object_init (classes w) cls then
            (Raise (Exception TypeError (c_name co +:+ "() takes no arguments")),
             w)
          else
            let '(id, w1) := new_instance cls w in (Return (VObj id), w1)
      end
  | _ :: _ =>
      (Raise (Exception TypeError "object.__new__(X): X is not a type object"),
       w)
  end.

(** Calling [f] with the arguments [a]. *)
Fixpoint call (f : func) (a : args) : M value :=
  match f with
  | Prim _ _ code => run_body code a
  | wrapped cl old =>
      msg ← lift (craft_message (_deadline cl) (func_named old)
                    (replacement cl) (message cl) (_deadline cl));
      warnings_warn msg (category cl);;
      call old a
  | new_init cl cls original_init =>
      '(self, rest) ← lift (bind_self a);
      old ← class_named cls;
      msg ← lift (craft_message (_deadline cl) old
                    (replacement cl) (message cl) (_deadline cl));
      warnings_warn msg (category cl);;
      call original_init (Args (self :: positional rest) (keywords rest));;
      mret VNone
  | decorated self _callable =>
      if negb (self_condition self) then
        raise (Exception (self_err_cls self) (self_message self))
      else call _callable a
  | object___init__ => object_init a
  | object___new__ => object_new a
  end.

(** *** Classes: assignment and construction *)

(** [cls.__init__]: along the MRO, [object.__init__] at its end. *)
Definition getattr___init__ (cs : gmap positive pyclass) (cls : positive)
  : option func :=
  co ← cs !! cls;
  Some (default object___init__
          (as_func <$> mro_lookup cs (cls :: c_mro co) "__init__")).

(** [cls.__new__]: along the MRO, [object.__new__] at its end. *)
Definition getattr___new__ (cs : gmap positive pyclass) (cls : positive)
  : option func :=
  co ← cs !! cls;
  Some (default object___new__
          (as_func <$> mro_lookup cs (cls :: c_mro co) "__new__")).

(** The class object with [f] under "__init__" in its own dictionary. *)
Definition with___init__ (f : func) (co : pyclass) : pyclass :=
  PyClass (c_name co) (c_module co) (c_mro co)
    (<["__init__" := AFunc f]> (c_dict co)).

(** [cls.__init__ = f]: the class object is updated where it is stored. *)
Definition setattr___init__ (cls : positive) (f : func)
    (cs : gmap positive pyclass) : gmap positive pyclass :=
  match cs !! cls with
  | Some co => <[cls := with___init__ f co]> cs
  | None => cs
  end.

(** What a construction makes of the result of [__init__]: it must be
    [None]. *)
Definition init_result (self : value) (r : outcome value) : outcome value :=
  match r with
  | Return VNone => Return self
  | Return _ => Raise (Exception TypeError "__init__() should return None")
  | Raise e => Raise e
  end.

(** [isinstance(v, cls)] for a class of the store. *)
Definition isinstance (w : world) (v : value) (cls : positive) : bool :=
  match type_of (instances w) v with
  | Some d =>
      bool_decide (d = cls)
      || match classes w !! d with
         | Some do => bool_decide (cls ∈ c_mro do)
         | None => false
         end
  | None => false
  end.

(** The first half of calling the class: [cls.__new__(cls, ...)] with the
    arguments of the call.  (A reference to a class always denotes a class
    of the store; the first case only makes the function total.) *)
Definition allocate (cls : positive) (a : args) : M value := fun w =>
  match getattr___new__ (classes w) cls with
  | None => (Raise (Exception RuntimeError "no such class"), w)
  | Some new => call new (Args (VClass cls :: positional a) (keywords a)) w
  end.

(** Calling the class, as [type.__call__] does: [__new__] first; when it
    returns an instance of the class, the [__init__] of the instance's type
    on it, with the arguments of the call; what [__new__] returned is the
    result. *)
Definition construct (cls : positive) (a : args) : M value := fun w =>
  match allocate cls a w with
  | (Raise e, w1) => (Raise e, w1)
  | (Return obj, w1) =>
      if isinstance w1 obj cls then
        match type_of (instances w1) obj ≫= getattr___init__ (classes w1) with
        | Some init =>
            let '(r, w2) :=
              call init (Args (obj :: positional a) (keywords a)) w1 in
            (init_result obj r, w2)
        | None => (Raise (Exception RuntimeError "no such class"), w1)
        end
      else (Return obj, w1)
  end.

(** *** The decorators *)

(** What a decorator is applied to, as [inspect.isfunction] and
    [inspect.isclass] sort it. *)
Inductive target :=
| TFunction (f : func)
| TClass (cls : positive)
| TOther (v : value).

Definition deprecated_function_decorator (cl : closure) (old : func) : func :=
  wrapped cl old.

Definition deprecated_class_decorator (cl : closure) (cls : positive)
  : M positive := fun w =>
  match getattr___init__ (classes w) cls with
  | None => (Raise (Exception RuntimeError "no such class"), w)
  | Some original_init =>
      (Return cls,
       World (instances w)
         (setattr___init__ cls (new_init cl cls original_init) (classes w))
         (warnings_log w) (sys_excepthook w))
  end.

Definition decorator (cl : closure) (t : target) : M target :=
  match t with
  | TFunction f => mret (TFunction (deprecated_function_decorator cl f))
  | TClass cls => cls' ← deprecated_class_decorator cl cls; mret (TClass cls')
  | TOther _ =>
      raise (Exception TypeError
        "The @deprecated decorator can only be applied to classes or functions")
  end.

(** *** The deadline check *)

(** The operating-system errors with which starting a process can fail. *)
Inductive os_error :=
| ENOENT
| EACCES
| ENOTDIR.

Definition os_exception (c : os_error) (msg : string) : exception :=
  Exception match c with
            | ENOENT => FileNotFoundError
            | EACCES => PermissionError
            | ENOTDIR => NotADirectoryError
            end msg.

(** What [subprocess.run] does with the [git config] query.  It is called
    without [check=True]: a non-zero exit status comes back in the
    [CompletedProcess], it is not raised. *)
Inductive subprocess_run :=
| CompletedProcess (returncode : Z) (stdout : string)
| RunRaises (c : os_error) (msg : string).

(** What [deprecated] reads from outside the program. *)
Record environment := Environment {
  environ : gmap string string;
  now : datetime;
  git_config_get_remote_origin_url : subprocess_run
}.

Definition getenv (env : environment) (k : string) : option string :=
  environ env !! k.

(** The chain of [strip], [lstrip], [lstrip], [rstrip] on the decoded output. *)
Definition owner_repo (stdout : string) : string :=
  PyStr.rstrip ".git"
    (PyStr.lstrip "git@github.com:"
       (PyStr.lstrip "https://github.com/"
          (PyStr.strip stdout))).

Definition _is_in_owner_repo (env : environment) : outcome bool :=
  match git_config_get_remote_origin_url env with
  | CompletedProcess _ stdout =>
      Return (bool_decide (Some (owner_repo stdout) = getenv env "GITHUB_REPOSITORY"))
  | RunRaises c msg =>
      let e := os_exception c msg in
      if bool_decide (exc_type e = CalledProcessError
                      ∨ exc_type e = FileNotFoundError)
      then Return false
      else Raise e
  end.

Definition raise_deadline_warning (env : environment)
    (_deadline : option datetime) : outcome unit :=
  match _deadline with
  | None => Return tt
  | Some d =>
      if negb (bool_decide (is_Some (getenv env "CI"))) then Return tt
      else if negb (Datetime.gt (now env) d) then Return tt
      else
        in_owner_repo ← _is_in_owner_repo env;
        if in_owner_repo : bool then
          Raise (Exception (WarningClass DeprecationWarning)
                   ("This function should have been removed on "
                    +:+ strftime_Ymd d +:+ "."))
        else Return tt
  end.

(** [deprecated(replacement, message, deadline, category)]: the variables
    of the returned [decorator]. *)
Definition deprecated (env : environment) (replacement : option pyobj)
    (message : string) (deadline : option (Z * Z * Z))
    (category : warning_category) : outcome closure :=
  _deadline ← (if deadline is Some ymd then
                 d ← datetime_ymd ymd; Return (Some d)
               else Return None);
  raise_deadline_warning env _deadline;;
  Return (Closure replacement message _deadline category).

(** ** [requires] *)

(** [requires(condition, message, err_cls=RuntimeError)]. *)
Definition requires___init__ (condition : bool) (message : string)
    (err_cls : option exc_class) : requires :=
  Requires condition message (default RuntimeError err_cls).

Definition requires___call__ (self : requires) (_callable : func) : func :=
  decorated self _callable.

(** ** [install_excepthook] *)

(** A formatter class of the library, called with keyword arguments: code
    of the library, which builds the hook object or raises, and may emit
    warnings and touch objects on the way. *)
Definition formatter : Type :=
  list (string * value) -> gmap positive instance ->
  outcome excepthook * gmap positive instance * list warning.

(** [IPython.core.ultratb], when it can be imported. *)
Record ultratb := Ultratb {
  ultratb_ColorTB : formatter;
  ultratb_VerboseTB : formatter
}.

(** Calling a formatter class: its effects are kept, also when it raises. *)
Definition run_formatter (hook : formatter) (kwargs : list (string * value))
  : M excepthook :=
  fun w => let '(r, h, ws) := hook kwargs (instances w) in
           (r, World h (classes w) (warnings_log w ++ ws) (sys_excepthook w)).

Definition set_excepthook (h : excepthook) : M unit := fun w =>
  (Return tt, World (instances w) (classes w) (warnings_log w) h).

Definition install_excepthook (import_ultratb : option ultratb)
    (hook_type : string) (kwargs : list (string * value)) : M Z :=
  match import_ultratb with
  | None =>
      warnings_warn "Cannot install excepthook, IPyhon.core.ultratb not available"
        UserWarning;;
      mret 1
  | Some ultratb =>
      let hooks : gmap string formatter :=
        {[ "color" := ultratb_ColorTB ultratb;
           "verbose" := ultratb_VerboseTB ultratb ]} in
      match hooks !! PyStr.lower hook_type with
      | None => mret 2
      | Some hook =>
          h ← run_formatter hook kwargs;
          set_excepthook h;;
          mret 0
      end
  end.

(** The two clone URL forms that the comments of the ownership check name. *)
Definition https_clone (owner repo : string) : string :=
  "https://github.com/" +:+ owner +:+ "/" +:+ repo.

Definition ssh_clone (owner repo : string) : string :=
  "git@github.com:" +:+ owner +:+ "/" +:+ repo +:+ ".git".

(** ** Vocabulary of the properties *)

(** Every character of [s] satisfies [p]. *)
Fixpoint all_chars (p : ascii -> bool) (s : string) : bool :=
  match s with
  | EmptyString => true
  | String c rest => p c && all_chars p rest
  end.

(** The names of the classes of a store. *)
Definition class_names (cs : gmap positive pyclass) : gmap positive named :=
  (fun co => Named (c_name co) (c_module co)) <$> cs.

(** The argument a method takes for [self] (or [cls]): the first
    positional argument, or the keyword "self" when there is none. *)
Definition receiver (a : args) : option value :=
  match positional a with
  | v :: _ => Some v
  | [] => kw_get "self" (keywords a)
  end.

(** The class whose slots the methods of [object] consult for a receiver:
    the class itself for [__new__], the type of the instance for
    [__init__]. *)
Definition class_of (insts : gmap positive instance) (v : value)
  : option positive :=
  match v with
  | VClass c => Some c
  | _ => type_of insts v
  end.

(** Two stores of classes in which every class has the same names, and
    the class [oc] of the receiver the same answers to the two questions
    the methods of [object] ask: all that [call] reads of the classes. *)
Definition same_views (oc : option positive) (cs' cs : gmap positive pyclass)
  : Prop :=
  class_names cs' = class_names cs
  /\ forall c, oc = Some c ->
       tp_init_is_object_init cs' c = tp_init_is_object_init cs c
       /\ tp_new_is_object_new cs' c = tp_new_is_object_new cs c.

(** What a function without a [return] makes of the result of its last
    call: [None], unless the call raised. *)
Definition then_none (r : outcome value) : outcome value :=
  match r with
  | Return _ => Return VNone
  | Raise e => Raise e
  end.

(** The conditions of the escalation as the code tests them: the variable
    CI is set; the clock is past the deadline; and the output of the git
    query, normalized by the code's own [owner_repo], equals
    GITHUB_REPOSITORY. *)
Definition ci_flag (env : environment) : Prop := is_Some (getenv env "CI").

Definition after_deadline (env : environment) (d : datetime) : Prop :=
  Datetime.gt (now env) d = true.

Definition remote_is_owner (env : environment) : Prop :=
  exists rc stdout,
    git_config_get_remote_origin_url env = CompletedProcess rc stdout
    /\ getenv env "GITHUB_REPOSITORY" = Some (owner_repo stdout).

(** The query came back, or failed in a way the ownership check catches. *)
Definition git_answers (env : environment) : Prop :=
  match git_config_get_remote_origin_url env with
  | CompletedProcess _ _ => True
  | RunRaises c _ => c = ENOENT
  end.

(** The error of the escalation. *)
Definition hard_deadline_exceeded (d : datetime) : exception :=
  Exception (WarningClass DeprecationWarning)
    ("This function should have been removed on " +:+ strftime_Ymd d +:+ ".").

(** ** Concrete environments, classes and functions *)

Module Examples.

Definition noon (y m d : Z) : datetime := mk_datetime y m d 12 0 0 0.

(** The owner's CI, long after the deadline. *)
Definition owner_ci : environment :=
  Environment {[ "CI" := "true"; "GITHUB_REPOSITORY" := "acme/rocks" ]}
    (noon 2024 6 1)
    (CompletedProcess 0 ("git@github.com:acme/rocks.git" +:+ PyStr.newline)).

(** A CI run where [git config --get remote.origin.url] finds no such
    remote: exit status 1, nothing on standard output; the variable
    GITHUB_REPOSITORY is set and empty. *)
Definition ci_without_origin : environment :=
  Environment {[ "CI" := "true"; "GITHUB_REPOSITORY" := "" ]}
    (noon 2024 6 1) (CompletedProcess 1 "").

(** A CI run where a [git] on the path may not be executed. *)
Definition ci_git_not_executable : environment :=
  Environment {[ "CI" := "true"; "GITHUB_REPOSITORY" := "acme/rocks" ]}
    (noon 2024 6 1) (RunRaises EACCES "[Errno 13] Permission denied: 'git'").

Definition spec_2020 : closure :=
  Closure (Some (Callable (Named "bar" "pkg.mod"))) ""
    (Some (mk_datetime 2020 1 1 0 0 0 0)) FutureWarning.

(** An initializer with a positional-only first parameter and starred
    keywords: it stores nothing and accepts any keyword. *)
Definition init_any : func :=
  Prim "__init__" "pkg.old" (fun _ h => (Return VNone, h, [])).

Definition Foo : pyclass :=
  PyClass "Foo" "pkg.old" [] {[ "__init__" := AFunc init_any;
                                "answer" := AValue (VInt 42) ]}.

Definition world0 : world :=
  World ∅ {[ 1%positive := Foo ]} [] DefaultHook.

Definition double : func :=
  Prim "double" "pkg.old" (fun a h =>
    match positional a with
    | [VInt n] => (Return (VInt (2 * n)), h, [])
    | _ => (Raise (Exception TypeError "double() takes one int"), h, [])
    end).

End Examples.

(** ** Vocabulary of the further properties *)

(** The triples [datetime] accepts. *)
Definition calendar_date (ymd : Z * Z * Z) : Prop :=
  let '(y, m, d) := ymd in
  (MINYEAR <= y <= MAXYEAR) /\ (1 <= m <= 12) /\ (1 <= d <= days_in_month y m).

(** [s.removeprefix(p)]: [s] without [p] at its head, [s] itself when [p]
    is not its head. *)
Fixpoint strip_prefix (p s : string) : option string :=
  match p, s with
  | EmptyString, _ => Some s
  | String a p', String b s' =>
      if Ascii.eqb a b then strip_prefix p' s' else None
  | String _ _, EmptyString => None
  end.

Definition removeprefix (p s : string) : string :=
  default s (strip_prefix p s).

(** [s.removesuffix(suf)]: [s] without [suf] at its end, [s] itself when
    [suf] is not its end. *)
Fixpoint removesuffix (suf s : string) : string :=
  match s with
  | EmptyString => EmptyString
  | String c rest =>
      if String.eqb s suf then EmptyString else String c (removesuffix suf rest)
  end.

(** The identity of the remote as the specification describes it: the
    URL that git prints, without the protocol and host prefix of its form
    (HTTPS or SSH clone) and without a trailing ".git".  It stands beside
    [owner_repo], which is what the code computes. *)
Definition spec_owner_repo (stdout : string) : string :=
  removesuffix ".git"
    (removeprefix "git@github.com:"
       (removeprefix "https://github.com/" (PyStr.strip stdout))).

(** The third condition of the escalation as the specification words it. *)
Definition spec_remote_is_owner (env : environment) : Prop :=
  exists rc stdout,
    git_config_get_remote_origin_url env = CompletedProcess rc stdout
    /\ getenv env "GITHUB_REPOSITORY" = Some (spec_owner_repo stdout).

(** The numbers a C [int] holds. *)
Definition fits_c_int (n : Z) : Prop := - 2 ^ 31 <= n < 2 ^ 31.

(** The same environment with another answer of the git query. *)
Definition with_git (g : subprocess_run) (env : environment) : environment :=
  Environment (environ env) (now env) g.

(** The time of day of a datetime. *)
Definition time_of_day (t : datetime) : list Z :=
  [hour t; minute t; second t; microsecond t].

(** Several [requires] decorators on one callable, the first outermost. *)
Definition guarded (guards : list requires) (f : func) : func :=
  fold_right requires___call__ f guards.

(** The first guard whose condition does not hold. *)
Definition first_failing (guards : list requires) : option requires :=
  List.find (fun r => negb (self_condition r)) guards.

Module MoreExamples.

(** The owner's CI at noon of the deadline day 2020-01-01. *)
Definition owner_ci_on_the_day : environment :=
  Environment {[ "CI" := "true"; "GITHUB_REPOSITORY" := "acme/rocks" ]}
    (Examples.noon 2020 1 1)
    (CompletedProcess 0 "https://github.com/acme/rocks").

(** The CI of this repository, on a clone of it. *)
Definition monty_ci : environment :=
  Environment {[ "CI" := "true";
                 "GITHUB_REPOSITORY" := "matthewcarbone/monty" ]}
    (Examples.noon 2024 6 1)
    (CompletedProcess 0
       ("https://github.com/matthewcarbone/monty" +:+ PyStr.newline)).

(** A developer's machine: no CI variable; a [git] that may not be run. *)
Definition laptop : environment :=
  Environment ∅ (Examples.noon 2024 6 1)
    (RunRaises EACCES "[Errno 13] Permission denied: 'git'").

(** A CI run on a machine without git. *)
Definition ci_without_git : environment :=
  Environment {[ "CI" := "true"; "GITHUB_REPOSITORY" := "acme/rocks" ]}
    (Examples.noon 2024 6 1)
    (RunRaises ENOENT "[Errno 2] No such file or directory: 'git'").

(** An initializer that returns a value. *)
Definition init_returns_int : func :=
  Prim "__init__" "pkg.old" (fun _ h => (Return (VInt 5), h, [])).

Definition Broken : pyclass :=
  PyClass "Broken" "pkg.old" [] {[ "__init__" := AFunc init_returns_int ]}.

(** [Foo] and a subclass [Bar] that defines no initializer. *)
Definition Bar : pyclass :=
  PyClass "Bar" "pkg.old" [1%positive] {[ "extra" := AValue (VInt 1) ]}.

Definition world1 : world :=
  World ∅ {[ 1%positive := Examples.Foo; 2%positive := Bar;
             3%positive := Broken ]} [] DefaultHook.

(** A [__new__] that takes any arguments and makes the instance as
    [object.__new__(cls)] does. *)
Definition new_any : func :=
  Prim "__new__" "pkg.old" (fun a h =>
    match positional a with
    | VClass c :: _ =>
        let id := fresh (dom h) in
        (Return (VObj id), <[id := Instance c ∅]> h, [])
    | _ =>
        (Raise (Exception TypeError "__new__() missing argument: 'cls'"), h, [])
    end).

(** A class that takes its arguments in [__new__] and leaves the
    initializer to [object]. *)
Definition Point : pyclass :=
  PyClass "Point" "pkg.old" [] {[ "__new__" := AFunc new_any ]}.

Definition world2 : world :=
  World ∅ {[ 1%positive := Point ]} [] DefaultHook.

(** An [ultratb] whose formatters reject every keyword argument. *)
Definition strict_ultratb : ultratb :=
  let mk k : formatter := fun kw h =>
    match kw with
    | [] => (Return (UltraTB k []), h, [])
    | _ => (Raise (Exception TypeError "unexpected keyword argument"), h, [])
    end in
  Ultratb (mk ColorTB) (mk VerboseTB).

End MoreExamples.

(** * Properties *)

#[local] Arguments Datetime.gt : simpl never.
#[local] Arguments strftime_Ymd : simpl never.

Ltac unfold_M :=
  unfold mbind, M_bind, mret, M_ret, lift, raise, warnings_warn, run_body,
    set_excepthook; cbn.

(** ** Message construction *)

Lemma craft_message_total (d : option datetime) (old : named)
    (r : option pyobj) (m : string) :
  exists msg, craft_message d old r m d = Return msg.
Proof.
  unfold craft_message.
  destruct d as [t|]; cbn; eauto.
Qed.

(** C2. The message is a function of the target's name, the replacement,
    the free text and the deadline alone: two targets of the same name get
    the same message, a replacement wrapped in a property, classmethod or
    staticmethod reads as the callable inside, and the two examples of the
    specification come out letter for letter ("; use" without a deadline, a
    line break and "Use" with one). *)
Theorem craft_message_deterministic_examples :
  (forall d name mod1 mod2 r m,
      craft_message d (Named name mod1) r m d
      = craft_message d (Named name mod2) r m d)
  /\ (forall d old m f,
      craft_message d old (Some (Property f)) m d
      = craft_message d old (Some (Callable f)) m d
      /\ craft_message d old (Some (Classmethod f)) m d
        = craft_message d old (Some (Callable f)) m d
      /\ craft_message d old (Some (Staticmethod f)) m d
        = craft_message d old (Some (Callable f)) m d)
  /\ craft_message None (Named "foo" "pkg.old")
       (Some (Callable (Named "bar" "pkg.mod"))) "" None
     = Return "foo is deprecated; use bar in pkg.mod instead."
  /\ (exists t, datetime_ymd (2099, 1, 1) = Return t
       /\ craft_message (Some t) (Named "foo" "pkg.old")
            (Some (Callable (Named "bar" "pkg.mod"))) "" (Some t)
          = Return ("foo is deprecated, and will be removed on 2099-01-01"
                    +:+ PyStr.newline +:+ "Use bar in pkg.mod instead.")).
Proof.
  repeat split.
  exists (mk_datetime 2099 1 1 0 0 0 0). split; reflexivity.
Qed.

(** ** Normalization of the remote URL *)

(** C4. On the HTTPS clone URL of this very repository the normalization
    eats the first letter of the owner, and on an SSH clone URL whose
    repository name ends in a letter of ".git" it eats that letter too:
    [lstrip] and [rstrip] take a set of characters, not a prefix or suffix. *)
Theorem owner_repo_strips_name_characters :
  owner_repo (https_clone "matthewcarbone" "monty") = "atthewcarbone/monty"
  /\ owner_repo (https_clone "matthewcarbone" "monty") <> "matthewcarbone/monty"
  /\ owner_repo (ssh_clone "acme" "widget") = "acme/widge"
  /\ owner_repo (ssh_clone "acme" "widget") <> "acme/widget".
Proof.
  repeat split; try reflexivity; vm_compute; discriminate.
Qed.

(** *** Where the stripping stops *)

Section strip_lemmas.
Variable p : ascii -> bool.


Lemma lstrip_by_app (a s : string) :
  all_chars p a = true -> PyStr.lstrip_by p (a +:+ s) = PyStr.lstrip_by p s.
Proof.
  induction a as [|c a IH]; simpl; [reflexivity|].
  intros [Hc Ha]%andb_true_iff. rewrite Hc. auto.
Qed.

Lemma lstrip_by_stop (c : ascii) (s : string) :
  p c = false -> PyStr.lstrip_by p (String c s) = String c s.
Proof. intros H. cbn. rewrite H. reflexivity. Qed.

Lemma rstrip_by_all (t : string) :
  all_chars p t = true -> PyStr.rstrip_by p t = EmptyString.
Proof.
  induction t as [|c t IH]; simpl; [reflexivity|].
  intros [Hc Ht]%andb_true_iff. rewrite (IH Ht), Hc. reflexivity.
Qed.

Lemma rstrip_by_app (s t : string) :
  all_chars p t = true -> PyStr.rstrip_by p (s +:+ t) = PyStr.rstrip_by p s.
Proof.
  intros Ht. induction s as [|c s IH]; simpl.
  - apply rstrip_by_all, Ht.
  - rewrite IH. reflexivity.
Qed.

Lemma rstrip_by_stop (s : string) (z : ascii) :
  p z = false ->
  PyStr.rstrip_by p (s +:+ String z EmptyString) = s +:+ String z EmptyString.
Proof.
  intros Hz. induction s as [|c s IH]; simpl.
  - rewrite Hz. reflexivity.
  - rewrite IH. destruct s; reflexivity.
Qed.
End strip_lemmas.

Lemma append_assoc (a b c : string) : (a +:+ b) +:+ c = a +:+ b +:+ c.
Proof.
  induction a as [|x a IH]; [reflexivity|].
  change (String x ((a +:+ b) +:+ c) = String x (a +:+ b +:+ c)).
  f_equal. exact IH.
Qed.

Lemma append_cons (x : ascii) (a b : string) :
  String x a +:+ b = String x (a +:+ b).
Proof. reflexivity. Qed.

Lemma append_nil_l (b : string) : "" +:+ b = b.
Proof. reflexivity. Qed.

Lemma lstrip_by_skip (p : ascii -> bool) (c : ascii) (s : string) :
  p c = true -> PyStr.lstrip_by p (String c s) = PyStr.lstrip_by p s.
Proof. intros H. simpl. rewrite H. reflexivity. Qed.

Ltac str_norm :=
  repeat (rewrite append_assoc || rewrite append_cons || rewrite append_nil_l).

(** X6. Where the normalization is right: on an SSH clone URL whose owner
    starts with a character outside "git@github.com:" and whose repository
    name ends with a character outside ".git", it gives owner, slash,
    repository. *)
Lemma owner_repo_ssh_clone (c z : ascii) (o r : string) :
  PyStr.mem c "git@github.com:" = false ->
  PyStr.mem z ".git" = false ->
  owner_repo (ssh_clone (String c o) (r +:+ String z EmptyString))
  = String c o +:+ "/" +:+ r +:+ String z EmptyString.
Proof.
  intros Hc Hz.
  unfold owner_repo, ssh_clone, PyStr.strip, PyStr.lstrip, PyStr.rstrip.
  str_norm.
  rewrite lstrip_by_stop by reflexivity.
  match goal with |- context [PyStr.rstrip_by PyStr.isspace ?s] => replace s
    with (("git@github.com:" +:+ String c o +:+ "/" +:+ r +:+ String z ".gi") +:+ "t")
    by (str_norm; reflexivity) end.
  rewrite rstrip_by_stop by reflexivity. str_norm.
  repeat rewrite lstrip_by_skip by reflexivity.
  rewrite lstrip_by_stop by reflexivity.
  repeat rewrite lstrip_by_skip by reflexivity.
  rewrite lstrip_by_stop by exact Hc.
  replace (String c (o +:+ String "/" (r +:+ String z ".git")))
    with (((String c o +:+ "/" +:+ r) +:+ String z "") +:+ ".git")
    by (str_norm; reflexivity).
  rewrite rstrip_by_app by reflexivity.
  rewrite rstrip_by_stop by exact Hz. str_norm. reflexivity.
Qed.

(** X7. On an HTTPS clone URL the normalization gives owner, slash,
    repository when the owner's first character is outside both prefixes
    "https://github.com/" and "git@github.com:", and the last character of
    the repository name is outside ".git" and no white space. *)
Lemma owner_repo_https_clone (c z : ascii) (o r : string) :
  PyStr.mem c "https://github.com/" = false ->
  PyStr.mem c "git@github.com:" = false ->
  PyStr.mem z ".git" = false ->
  PyStr.isspace z = false ->
  owner_repo (https_clone (String c o) (r +:+ String z EmptyString))
  = String c o +:+ "/" +:+ r +:+ String z EmptyString.
Proof.
  intros Hc1 Hc2 Hz Hs.
  unfold owner_repo, https_clone, PyStr.strip, PyStr.lstrip, PyStr.rstrip.
  str_norm.
  rewrite lstrip_by_stop by reflexivity.
  match goal with |- context [PyStr.rstrip_by PyStr.isspace ?s] => replace s
    with (("https://github.com/" +:+ String c o +:+ "/" +:+ r) +:+ String z "")
    by (str_norm; reflexivity) end.
  rewrite rstrip_by_stop by exact Hs. str_norm.
  repeat rewrite lstrip_by_skip by reflexivity.
  rewrite lstrip_by_stop by exact Hc1.
  rewrite lstrip_by_stop by exact Hc2.
  replace (String c (o +:+ String "/" (r +:+ String z "")))
    with ((String c o +:+ "/" +:+ r) +:+ String z "")
    by (str_norm; reflexivity).
  rewrite rstrip_by_stop by exact Hz. str_norm. reflexivity.
Qed.

(** ** Calls: what they read and what they change *)

Lemma class_named_names cs cs' cls h l hk :
  class_names cs' = class_names cs ->
  class_named cls (World h cs' l hk)
  = match class_names cs !! cls with
    | Some n => (Return n, World h cs' l hk)
    | None => (Raise (Exception RuntimeError "no such class"), World h cs' l hk)
    end.
Proof.
  intros E. rewrite <- E. unfold class_named, class_names. cbn.
  rewrite lookup_fmap. destruct (cs' !! cls); reflexivity.
Qed.

Lemma same_views_refl oc (cs : gmap positive pyclass) : same_views oc cs cs.
Proof. split; [reflexivity|]. intros c _. split; reflexivity. Qed.

Lemma bind_self_receiver a self rest :
  bind_self a = Return (self, rest) -> receiver a = Some self.
Proof.
  unfold bind_self, receiver. destruct (positional a) as [|v vs].
  - destruct (kw_get "self" (keywords a)); [|discriminate].
    intros [= -> _]. reflexivity.
  - destruct (kw_get "self" (keywords a)); [discriminate|].
    intros [= -> _]. reflexivity.
Qed.

Lemma class_names_None cs c : class_names cs !! c = None <-> cs !! c = None.
Proof.
  unfold class_names. rewrite lookup_fmap. destruct (cs !! c); cbn;
    split; intros; congruence.
Qed.

Lemma class_names_name cs c :
  c_name <$> cs !! c = __name__ <$> class_names cs !! c.
Proof.
  unfold class_names. rewrite lookup_fmap. destruct (cs !! c); reflexivity.
Qed.

(** [object.__init__] changes nothing and reads of the classes what
    [same_views] keeps. *)
Lemma object_init_frame a h cs cs' l hk :
  same_views (receiver a ≫= class_of h) cs' cs ->
  object_init a (World h cs' l hk)
  = ((object_init a (World h cs [] DefaultHook)).1, World h cs' l hk).
Proof.
  intros [En Es]. unfold object_init. unfold receiver in Es.
  destruct (positional a) as [|self rest]; [reflexivity|].
  destruct (excess_args rest (keywords a)); [|reflexivity].
  cbn [instances classes].
  destruct self; try reflexivity.
  cbn [mbind option_bind class_of] in Es.
  destruct (type_of h (VObj id)) as [cls|]; [|reflexivity].
  destruct (Es cls eq_refl) as [-> ->].
  rewrite !class_names_name, En.
  destruct (tp_init_is_object_init cs cls); [|reflexivity]. cbn.
  destruct (tp_new_is_object_new cs cls); reflexivity.
Qed.

(** [object.__new__] adds the instance and reads of the classes what
    [same_views] keeps. *)
Lemma object_new_frame a h cs cs' l hk :
  same_views (receiver a ≫= class_of h) cs' cs ->
  object_new a (World h cs' l hk)
  = ((object_new a (World h cs [] DefaultHook)).1,
     World (instances (object_new a (World h cs [] DefaultHook)).2) cs' l hk).
Proof.
  intros [En Es]. unfold object_new. unfold receiver in Es.
  destruct (positional a) as [|c0 rest]; [reflexivity|].
  destruct c0; try reflexivity.
  cbn [classes]. cbn [mbind option_bind class_of] in Es.
  assert (Hn : class_names cs' !! cls = class_names cs !! cls)
    by (rewrite En; reflexivity).
  assert (Hname : c_name <$> cs' !! cls = c_name <$> cs !! cls)
    by (rewrite !class_names_name, Hn; reflexivity).
  destruct (Es cls eq_refl) as [Ei Ew].
  destruct (cs' !! cls) as [co'|] eqn:E', (cs !! cls) as [co|] eqn:E;
    cbn in Hname; try discriminate; [|reflexivity].
  injection Hname as ->. rewrite Ei, Ew.
  destruct (excess_args rest (keywords a) && negb _); [reflexivity|].
  destruct (excess_args rest (keywords a) && _); reflexivity.
Qed.

(** A call leaves the classes and the exception hook alone, appends its
    warnings to the log without reading it, and reads of the classes their
    names and, for the class of the receiver, the two answers of
    [same_views] only. *)
Lemma call_frame (f : func) :
  forall a h cs, exists r h' ws, forall cs' l hk,
    same_views (receiver a ≫= class_of h) cs' cs ->
    call f a (World h cs' l hk) = (r, World h' cs' (l ++ ws) hk).
Proof.
  induction f as [name module code | cl old IH | cl cls orig IH | self f IH
                 | | ];
    intros a h cs.
  - destruct (code a h) as [[r h'] ws] eqn:E.
    exists r, h', ws. intros cs' l hk _. cbn. unfold run_body. cbn.
    rewrite E. reflexivity.
  - destruct (craft_message_total (_deadline cl) (func_named old)
                (replacement cl) (message cl)) as [msg Hm].
    destruct (IH a h cs) as (r & h' & ws & H).
    exists r, h', (Warning (category cl) msg :: ws). intros cs' l hk E.
    cbn. unfold_M. rewrite Hm. cbn. rewrite (H _ _ _ E).
    rewrite <- app_assoc. reflexivity.
  - destruct (bind_self a) as [[self rest]|e] eqn:Hb.
    2:{ exists (Raise e), h, []. intros cs' l hk E. cbn. unfold_M. rewrite Hb.
        rewrite app_nil_r. reflexivity. }
    destruct (class_names cs !! cls) as [n|] eqn:Hn.
    2:{ exists (Raise (Exception RuntimeError "no such class")), h, [].
        intros cs' l hk E. cbn. unfold_M. rewrite Hb.
        rewrite (class_named_names cs cs' cls h l hk (proj1 E)), Hn.
        rewrite app_nil_r. reflexivity. }
    destruct (craft_message_total (_deadline cl) n
                (replacement cl) (message cl)) as [msg Hm].
    destruct (IH (Args (self :: positional rest) (keywords rest)) h cs)
      as (r & h' & ws & H).
    exists (match r with Return _ => Return VNone | Raise e => Raise e end),
      h', (Warning (category cl) msg :: ws).
    intros cs' l hk E. cbn. unfold_M. rewrite Hb.
    rewrite (class_named_names cs cs' cls h l hk (proj1 E)), Hn.
    rewrite Hm. cbn.
    rewrite (bind_self_receiver a self rest Hb) in E.
    rewrite (H _ _ _ E). rewrite <- app_assoc. destruct r; reflexivity.
  - destruct (self_condition self) eqn:Hc.
    + destruct (IH a h cs) as (r & h' & ws & H).
      exists r, h', ws. intros cs' l hk E. cbn. rewrite Hc. cbn. apply H, E.
    + exists (Raise (Exception (self_err_cls self) (self_message self))), h, [].
      intros cs' l hk E. cbn. rewrite Hc. cbn. unfold raise.
      rewrite app_nil_r. reflexivity.
  - exists (object_init a (World h cs [] DefaultHook)).1, h, [].
    intros cs' l hk E. cbn [call].
    rewrite (object_init_frame a h cs cs' l hk E), app_nil_r. reflexivity.
  - exists (object_new a (World h cs [] DefaultHook)).1,
      (instances (object_new a (World h cs [] DefaultHook)).2), [].
    intros cs' l hk E. cbn [call].
    rewrite (object_new_frame a h cs cs' l hk E), app_nil_r. reflexivity.
Qed.

(** ** The function decorator *)

(** C1. Decorating a function changes nothing in the store and yields
    [wrapped]; a call of [wrapped] returns (or raises) exactly what the
    original does on the same arguments, leaves the store as the original
    does, and logs one warning more than the original: the crafted message
    under the configured category, ahead of whatever the original emits. *)
Theorem deprecated_function_same_result_one_warning
    (cl : closure) (old : func) (a : args) (w : world) :
  exists msg r h ws,
    decorator cl (TFunction old) w
    = (Return (TFunction (deprecated_function_decorator cl old)), w)
    /\ craft_message (_deadline cl) (func_named old) (replacement cl)
         (message cl) (_deadline cl) = Return msg
    /\ call old a w
       = (r, World h (classes w) (warnings_log w ++ ws) (sys_excepthook w))
    /\ call (deprecated_function_decorator cl old) a w
       = (r, World h (classes w)
               (warnings_log w ++ Warning (category cl) msg :: ws)
               (sys_excepthook w)).
Proof.
  destruct w as [h cs l hk].
  destruct (craft_message_total (_deadline cl) (func_named old)
              (replacement cl) (message cl)) as [msg Hm].
  destruct (call_frame old a h cs) as (r & h' & ws & H).
  exists msg, r, h', ws. cbn [classes warnings_log sys_excepthook].
  repeat split; [exact Hm | apply H, same_views_refl |].
  cbn. unfold_M. rewrite Hm. cbn. rewrite (H cs _ hk (same_views_refl _ cs)).
  rewrite <- app_assoc. reflexivity.
Qed.

(** ** Unsupported targets *)

(** C6. Applied to a target that is neither a function nor a class, the
    decorator raises the [TypeError] on the spot and leaves the store,
    log and hook included, as it found it; no callable is produced that
    could fail later. *)
Theorem decorator_rejects_other_targets (cl : closure) (v : value) (w : world) :
  decorator cl (TOther v) w
  = (Raise (Exception TypeError
       "The @deprecated decorator can only be applied to classes or functions"),
     w).
Proof. reflexivity. Qed.

(** ** The dependency guard *)

(** C7. With a false condition every call of the guarded callable raises
    the configured error class ([RuntimeError] when none is given) with the
    configured message, whatever the arguments, and nothing else happens;
    with a true condition the call is the call of the original. *)
Theorem requires_guard (msg : string) (err : option exc_class)
    (f : func) (a : args) (w : world) :
  call (requires___call__ (requires___init__ false msg err) f) a w
  = (Raise (Exception (default RuntimeError err) msg), w)
  /\ call (requires___call__ (requires___init__ false msg None) f) a w
     = (Raise (Exception RuntimeError msg), w)
  /\ call (requires___call__ (requires___init__ true msg err) f) a w
     = call f a w.
Proof. repeat split. Qed.

(** ** The traceback hook *)

Lemma hooks_lookup {A} (c v : A) (k : string) :
  ({[ "color" := c; "verbose" := v ]} : gmap string A) !! k
  = if decide (k = "color") then Some c
    else if decide (k = "verbose") then Some v else None.
Proof.
  destruct (decide (k = "color")) as [->|Hc].
  - apply lookup_insert_eq.
  - rewrite lookup_insert_ne by congruence.
    destruct (decide (k = "verbose")) as [->|Hv].
    + apply lookup_singleton_eq.
    + apply lookup_singleton_ne. congruence.
Qed.

(** C9. Without the library the installer logs a warning and returns 1;
    with the library and a name that is neither "color" nor "verbose"
    (letter case aside) it returns 2 and changes nothing; it returns 0
    exactly when the library is there, the name is known and the hook
    object was built and stored in [sys.excepthook] (the store is then as
    the formatter left it); and whenever it does not return 0 the hook is
    the one it found. *)
Theorem install_excepthook_status :
  (forall hook_type kwargs w,
      install_excepthook None hook_type kwargs w
      = (Return 1,
         World (instances w) (classes w)
           (warnings_log w
            ++ [Warning UserWarning
                  "Cannot install excepthook, IPyhon.core.ultratb not available"])
           (sys_excepthook w)))
  /\ (forall lib hook_type kwargs w,
        PyStr.lower hook_type <> "color" ->
        PyStr.lower hook_type <> "verbose" ->
        install_excepthook (Some lib) hook_type kwargs w = (Return 2, w))
  /\ (forall imp hook_type kwargs w,
        (install_excepthook imp hook_type kwargs w).1 = Return 0
        <-> exists lib hook h insts ws,
            imp = Some lib
            /\ (PyStr.lower hook_type = "color" /\ hook = ultratb_ColorTB lib
                \/ PyStr.lower hook_type = "verbose"
                   /\ hook = ultratb_VerboseTB lib)
            /\ hook kwargs (instances w) = (Return h, insts, ws)
            /\ (install_excepthook imp hook_type kwargs w).2
               = World insts (classes w) (warnings_log w ++ ws) h)
  /\ (forall imp hook_type kwargs w,
        (install_excepthook imp hook_type kwargs w).1 <> Return 0 ->
        sys_excepthook (install_excepthook imp hook_type kwargs w).2
        = sys_excepthook w).
Proof.
  split; [reflexivity|]. split; [|split].
  - intros lib ht kw w Hc Hv. unfold install_excepthook.
    rewrite hooks_lookup. repeat case_decide; try contradiction. reflexivity.
  - intros imp ht kw w. unfold install_excepthook. split.
    + destruct imp as [lib|]; [|cbn; discriminate].
      rewrite hooks_lookup. repeat case_decide; unfold_M; unfold run_formatter.
      * destruct (ultratb_ColorTB lib kw (instances w)) as [[[h|e] i] ws] eqn:E;
          cbn; [|discriminate].
        intros _. exists lib, (ultratb_ColorTB lib), h, i, ws. eauto 10.
      * destruct (ultratb_VerboseTB lib kw (instances w)) as [[[h|e] i] ws] eqn:E;
          cbn; [|discriminate].
        intros _. exists lib, (ultratb_VerboseTB lib), h, i, ws. eauto 10.
      * intros [=].
    + intros (lib & hook & h & i & ws & -> & Hk & Hh & _). rewrite hooks_lookup.
      destruct Hk as [[Hn ->]|[Hn ->]]; rewrite Hn;
        repeat case_decide; try discriminate; try contradiction;
        unfold_M; unfold run_formatter; rewrite Hh; reflexivity.
  - intros imp ht kw w. unfold install_excepthook.
    destruct imp as [lib|]; [|reflexivity].
    rewrite hooks_lookup. repeat case_decide; unfold_M; unfold run_formatter.
    + destruct (ultratb_ColorTB lib kw (instances w)) as [[[h|e] i] ws];
        cbn; [congruence|reflexivity].
    + destruct (ultratb_VerboseTB lib kw (instances w)) as [[[h|e] i] ws];
        cbn; [congruence|reflexivity].
    + reflexivity.
Qed.

(** ** The deadline check *)

Lemma _is_in_owner_repo_true (env : environment) :
  _is_in_owner_repo env = Return true <-> remote_is_owner env.
Proof.
  unfold _is_in_owner_repo, remote_is_owner.
  destruct (git_config_get_remote_origin_url env) as [rc out|c m].
  - split.
    + intros [= H]. apply bool_decide_eq_true in H. eauto.
    + intros (rc' & out' & [= _ <-] & H). f_equal.
      apply bool_decide_eq_true. congruence.
  - split.
    + destruct c; cbn; discriminate.
    + intros (? & ? & [=] & _).
Qed.

Lemma _is_in_owner_repo_answers (env : environment) :
  git_answers env -> ~ remote_is_owner env ->
  _is_in_owner_repo env = Return false.
Proof.
  intros Ha Hn. pose proof (_is_in_owner_repo_true env) as Ht.
  unfold _is_in_owner_repo, git_answers in *.
  destruct (git_config_get_remote_origin_url env) as [rc out|c m].
  - destruct (bool_decide _); [|reflexivity]. exfalso. apply Hn, Ht. reflexivity.
  - subst c. reflexivity.
Qed.

Lemma raise_deadline_warning_cases (env : environment) (d : datetime) :
  raise_deadline_warning env (Some d)
  = if bool_decide (is_Some (getenv env "CI")) && Datetime.gt (now env) d then
      match _is_in_owner_repo env with
      | Return true => Raise (hard_deadline_exceeded d)
      | Return false => Return tt
      | Raise e => Raise e
      end
    else Return tt.
Proof.
  unfold raise_deadline_warning.
  destruct (bool_decide (is_Some (getenv env "CI"))); cbn; [|reflexivity].
  destruct (Datetime.gt (now env) d); cbn; [|reflexivity].
  destruct (_is_in_owner_repo env) as [[|]|e]; reflexivity.
Qed.

Lemma deprecated_with_deadline env repl msg ymd cat d :
  datetime_ymd ymd = Return d ->
  deprecated env repl msg (Some ymd) cat
  = match raise_deadline_warning env (Some d) with
    | Return _ => Return (Closure repl msg (Some d) cat)
    | Raise e => Raise e
    end.
Proof. intros H. unfold deprecated. rewrite H. reflexivity. Qed.

(** An exception that escapes the ownership check is never the error of
    the escalation. *)
Lemma _is_in_owner_repo_raises env e d :
  _is_in_owner_repo env = Raise e -> e <> hard_deadline_exceeded d.
Proof.
  unfold _is_in_owner_repo.
  destruct (git_config_get_remote_origin_url env) as [rc out|c m];
    [discriminate|].
  destruct c; cbn; intros [= <-]; discriminate.
Qed.

(** What [deprecated] hands out, when it hands out anything: its arguments,
    with the deadline as a datetime. *)
Lemma deprecated_closure env repl msg deadline cat cl :
  deprecated env repl msg deadline cat = Return cl ->
  replacement cl = repl /\ message cl = msg /\ category cl = cat
  /\ match deadline with
     | Some ymd => exists d, datetime_ymd ymd = Return d /\ _deadline cl = Some d
     | None => _deadline cl = None
     end.
Proof.
  destruct deadline as [ymd|].
  - destruct (datetime_ymd ymd) as [d|e] eqn:Hd.
    + rewrite (deprecated_with_deadline _ _ _ _ _ _ Hd).
      destruct (raise_deadline_warning env (Some d)); [|discriminate].
      intros [= <-]. cbn. eauto 10.
    + unfold deprecated. rewrite Hd. discriminate.
  - intros [= <-]. cbn. auto.
Qed.

(** X18. What the code does with a deadline that is a calendar date:
    [deprecated] raises the escalation error exactly when the variable CI
    is set, the clock is strictly past the deadline (midnight opening that
    day), and the git query came back with an output that, stripped as the
    code strips it ([owner_repo]: by sets of characters, not by prefix and
    suffix), equals GITHUB_REPOSITORY.  With CI unset, or the clock not
    past the deadline, the decorator is handed out; so it is when the
    stripped output differs from GITHUB_REPOSITORY, provided the query came
    back or git was not found (any other failure of the query leaves
    [deprecated] as an exception).  The decorator handed out holds the
    arguments and the deadline, nothing of the environment: the check is
    not repeated when the decorated callable runs. *)
Theorem deadline_escalation (env : environment) (repl : option pyobj)
    (msg : string) (ymd : Z * Z * Z) (cat : warning_category) (d : datetime) :
  datetime_ymd ymd = Return d ->
  (deprecated env repl msg (Some ymd) cat = Raise (hard_deadline_exceeded d)
   <-> ci_flag env /\ after_deadline env d /\ remote_is_owner env)
  /\ (~ ci_flag env ->
      deprecated env repl msg (Some ymd) cat
      = Return (Closure repl msg (Some d) cat))
  /\ (~ after_deadline env d ->
      deprecated env repl msg (Some ymd) cat
      = Return (Closure repl msg (Some d) cat))
  /\ (~ remote_is_owner env -> git_answers env ->
      deprecated env repl msg (Some ymd) cat
      = Return (Closure repl msg (Some d) cat)).
Proof.
  intros Hd. rewrite (deprecated_with_deadline _ _ _ _ _ _ Hd).
  rewrite raise_deadline_warning_cases.
  unfold ci_flag, after_deadline.
  pose proof (_is_in_owner_repo_true env) as Ht.
  destruct (bool_decide (is_Some (getenv env "CI"))) eqn:Hci; cbn.
  2:{ apply bool_decide_eq_false in Hci.
      split; [split; [discriminate | intros (Hc & _); contradiction]|].
      repeat split; reflexivity. }
  apply bool_decide_eq_true in Hci.
  destruct (Datetime.gt (now env) d) eqn:Hgt; cbn.
  2:{ split; [split; [discriminate | intros (_ & [=] & _)]|].
      repeat split; reflexivity. }
  split; [|split; [tauto|split; [congruence|]]].
  - destruct (_is_in_owner_repo env) as [[|]|e] eqn:Ho.
    + split; [|reflexivity]. intros _. repeat split; tauto.
    + split; [discriminate|]. intros (_ & _ & Hr). apply Ht in Hr. discriminate.
    + split.
      * intros [= ->]. exfalso.
        exact (_is_in_owner_repo_raises env _ d Ho eq_refl).
      * intros (_ & _ & Hr). apply Ht in Hr. discriminate.
  - intros Hn Ha. rewrite (_is_in_owner_repo_answers env Ha Hn). reflexivity.
Qed.

Lemma deadline_escalation_witness :
  datetime_ymd (2020, 1, 1) = Return (mk_datetime 2020 1 1 0 0 0 0)
  /\ deprecated Examples.owner_ci None "" (Some (2020, 1, 1)) FutureWarning
     = Raise (hard_deadline_exceeded (mk_datetime 2020 1 1 0 0 0 0)).
Proof.
  split; [reflexivity|].
  apply (deadline_escalation Examples.owner_ci None "" (2020, 1, 1)
           FutureWarning (mk_datetime 2020 1 1 0 0 0 0) eq_refl).
  split; [|split].
  - exists "true". reflexivity.
  - reflexivity.
  - exists 0, ("git@github.com:acme/rocks.git" +:+ PyStr.newline).
    split; reflexivity.
Defined.

(** The clock against the midnight that opens the deadline day: later
    days are past it, and so is the deadline day itself from its first
    microsecond on. *)
Lemma gt_midnight (t : datetime) (y m d : Z) :
  0 <= hour t -> 0 <= minute t -> 0 <= second t -> 0 <= microsecond t ->
  Datetime.gt t (mk_datetime y m d 0 0 0 0) = true
  <-> Datetime.list_gt [year t; month t; day t] [y; m; d] = true
      \/ ([year t; month t; day t] = [y; m; d]
          /\ [hour t; minute t; second t; microsecond t] <> [0; 0; 0; 0]).
Proof.
  intros Hh Hm Hs Hu. destruct t as [ty tm td th tmi ts tu]. cbn in *.
  unfold Datetime.gt. cbn.
  repeat match goal with
         | |- context [?a =? ?b] => destruct (Z.eqb_spec a b); subst
         end;
    split; intros H;
    try (left; exact H); try (left; reflexivity);
    try (destruct H as [H|[H1 H2]]; [ first [exact H | discriminate H]
                                    | congruence ]);
    try discriminate;
    try (right; split; [reflexivity|congruence]);
    try (destruct H as [H|[H1 H2]]; [discriminate|]; apply Z.ltb_lt; lia).
Qed.

(** ** The ownership check when git gives no answer *)

(** X8. When git is not installed ([FileNotFoundError]) the check answers
    "not the owner's repository" and the decorator is handed out, whatever
    CI, the clock and GITHUB_REPOSITORY say. *)
Lemma git_missing_skips_escalation env repl msg ymd cat d m :
  git_config_get_remote_origin_url env = RunRaises ENOENT m ->
  datetime_ymd ymd = Return d ->
  _is_in_owner_repo env = Return false
  /\ deprecated env repl msg (Some ymd) cat
     = Return (Closure repl msg (Some d) cat).
Proof.
  intros Hg Hd.
  assert (Ho : _is_in_owner_repo env = Return false)
    by (unfold _is_in_owner_repo; rewrite Hg; reflexivity).
  split; [exact Ho|].
  rewrite (deprecated_with_deadline _ _ _ _ _ _ Hd),
    raise_deadline_warning_cases, Ho.
  destruct (_ && _); reflexivity.
Qed.

(** X9. A query that prints nothing, whatever its exit status, leaves the
    empty string to compare: the check answers "owner's repository"
    exactly when GITHUB_REPOSITORY is set to the empty string. *)
Lemma _is_in_owner_repo_no_answer env rc :
  git_config_get_remote_origin_url env = CompletedProcess rc "" ->
  _is_in_owner_repo env
  = Return (bool_decide (getenv env "GITHUB_REPOSITORY" = Some "")).
Proof.
  intros Hg. unfold _is_in_owner_repo. rewrite Hg. f_equal.
  apply bool_decide_ext. cbn. split; congruence.
Qed.

(** C8. In a CI run past the deadline where the git query fails with exit
    status 1 and empty output and GITHUB_REPOSITORY is set and empty, the
    ownership check answers "owner's repository" and [deprecated] raises the
    escalation error; where git is on the path and may not be executed, the
    [PermissionError] of the query leaves [deprecated]. *)
Theorem failed_git_query_not_skipped :
  _is_in_owner_repo Examples.ci_without_origin = Return true
  /\ deprecated Examples.ci_without_origin None "" (Some (2020, 1, 1))
       FutureWarning
     = Raise (hard_deadline_exceeded (mk_datetime 2020 1 1 0 0 0 0))
  /\ deprecated Examples.ci_git_not_executable None "" (Some (2020, 1, 1))
       FutureWarning
     = Raise (Exception PermissionError "[Errno 13] Permission denied: 'git'").
Proof. repeat split. Qed.

(** ** The escalation that does not come *)

(** The normalization of the specification on the two clone URL forms. *)
Lemma spec_owner_repo_examples :
  spec_owner_repo (https_clone "matthewcarbone" "monty")
  = "matthewcarbone/monty"
  /\ spec_owner_repo (ssh_clone "matthewcarbone" "monty")
     = "matthewcarbone/monty"
  /\ spec_owner_repo (ssh_clone "acme" "widget") = "acme/widget".
Proof. repeat split. Qed.

(** C3. In the CI of this repository, on a clone of it and long after the
    deadline, all three conditions of the escalation hold (CI is set, the
    clock is past the deadline, and the identity of the remote, prefix and
    ".git" removed, is the one in GITHUB_REPOSITORY), and yet [deprecated]
    hands out the decorator: the code compares the identity as its own
    stripping leaves it, "atthewcarbone/monty". *)
Theorem escalation_missed_in_owner_repository :
  datetime_ymd (2020, 1, 1) = Return (mk_datetime 2020 1 1 0 0 0 0)
  /\ ci_flag MoreExamples.monty_ci
  /\ after_deadline MoreExamples.monty_ci (mk_datetime 2020 1 1 0 0 0 0)
  /\ spec_remote_is_owner MoreExamples.monty_ci
  /\ _is_in_owner_repo MoreExamples.monty_ci = Return false
  /\ deprecated MoreExamples.monty_ci None "" (Some (2020, 1, 1)) FutureWarning
     = Return (Closure None "" (Some (mk_datetime 2020 1 1 0 0 0 0))
                 FutureWarning).
Proof.
  split; [reflexivity|]. split; [exists "true"; reflexivity|].
  split; [reflexivity|]. split; [|split; reflexivity].
  exists 0, ("https://github.com/matthewcarbone/monty" +:+ PyStr.newline).
  split; reflexivity.
Qed.

(** ** The class decorator *)

Section class_decorator.

Variables (cs : gmap positive pyclass) (cls : positive) (co : pyclass).
Variable f : func.
Hypothesis Hcls : cs !! cls = Some co.

Lemma setattr___init___insert :
  setattr___init__ cls f cs = <[cls := with___init__ f co]> cs.
Proof using Hcls. unfold setattr___init__. rewrite Hcls. reflexivity. Qed.

Lemma class_names_setattr :
  class_names (setattr___init__ cls f cs) = class_names cs.
Proof using Hcls.
  rewrite setattr___init___insert. unfold class_names.
  rewrite fmap_insert. apply insert_id.
  rewrite lookup_fmap, Hcls. reflexivity.
Qed.

Lemma mro_lookup_setattr_head (rest : list positive) :
  mro_lookup (setattr___init__ cls f cs) (cls :: rest) "__init__"
  = Some (AFunc f).
Proof using Hcls.
  rewrite setattr___init___insert. cbn.
  rewrite lookup_insert_eq. cbn. rewrite lookup_insert_eq. reflexivity.
Qed.

Lemma mro_lookup_setattr_none (l : list positive) :
  mro_lookup cs l "__init__" = None ->
  mro_lookup (setattr___init__ cls f cs) l "__init__" = None
  \/ mro_lookup (setattr___init__ cls f cs) l "__init__" = Some (AFunc f).
Proof using Hcls.
  induction l as [|c l IH]; [left; reflexivity|].
  destruct (decide (c = cls)) as [->|Hne].
  - intros _. right. apply mro_lookup_setattr_head.
  - cbn. rewrite setattr___init___insert.
    rewrite lookup_insert_ne by congruence.
    destruct (cs !! c ≫= _); [discriminate|].
    rewrite <- setattr___init___insert. exact IH.
Qed.

Lemma mro_lookup_app (m : gmap positive pyclass) (l1 l2 : list positive)
    (k : string) :
  mro_lookup m (l1 ++ l2)%list k
  = match mro_lookup m l1 k with
    | Some x => Some x
    | None => mro_lookup m l2 k
    end.
Proof.
  induction l1 as [|c l1 IH]; [reflexivity|]. cbn.
  destruct (m !! c ≫= _); [reflexivity|exact IH].
Qed.

Lemma getattr_setattr_self :
  getattr___init__ (setattr___init__ cls f cs) cls = Some f.
Proof using Hcls.
  unfold getattr___init__.
  assert (H : setattr___init__ cls f cs !! cls = Some (with___init__ f co))
    by (rewrite setattr___init___insert; apply lookup_insert_eq).
  rewrite H. cbn [mbind option_bind].
  rewrite mro_lookup_setattr_head. reflexivity.
Qed.

Lemma getattr_setattr_subclass (d : positive) (do : pyclass)
    (pre post : list positive) :
  cs !! d = Some do -> d <> cls ->
  c_mro do = (pre ++ cls :: post)%list ->
  mro_lookup cs (d :: pre) "__init__" = None ->
  getattr___init__ (setattr___init__ cls f cs) d = Some f.
Proof using Hcls.
  intros Hd Hne Hmro Hnone. unfold getattr___init__.
  assert (Hd' : setattr___init__ cls f cs !! d = Some do)
    by (rewrite setattr___init___insert, lookup_insert_ne by congruence;
        exact Hd).
  rewrite Hd'. cbn [mbind option_bind].
  rewrite Hmro.
  change (d :: pre ++ cls :: post)%list
    with ((d :: pre) ++ cls :: post)%list.
  rewrite mro_lookup_app.
  destruct (mro_lookup_setattr_none (d :: pre) Hnone) as [-> | ->].
  - rewrite mro_lookup_setattr_head. reflexivity.
  - reflexivity.
Qed.

End class_decorator.

Lemma getattr___init___some (cs : gmap positive pyclass) (cls : positive)
    (co : pyclass) :
  cs !! cls = Some co -> exists f, getattr___init__ cs cls = Some f.
Proof. intros H. unfold getattr___init__. rewrite H. cbn. eauto. Qed.


Lemma bind_self_positional (self : value) (pos : list value)
    (kw : list (string * value)) :
  kw_get "self" kw = None ->
  bind_self (Args (self :: pos) kw) = Return (self, Args pos kw).
Proof. intros H. unfold bind_self. cbn. rewrite H. reflexivity. Qed.

Lemma call_new_init cl cls orig self pos kw h cs l hk n msg :
  kw_get "self" kw = None ->
  class_names cs !! cls = Some n ->
  craft_message (_deadline cl) n (replacement cl) (message cl) (_deadline cl)
  = Return msg ->
  call (new_init cl cls orig) (Args (self :: pos) kw) (World h cs l hk)
  = let '(r, w') :=
      call orig (Args (self :: pos) kw)
        (World h cs (l ++ [Warning (category cl) msg]) hk) in
    (match r with Return _ => Return VNone | Raise e => Raise e end, w').
Proof.
  intros Hkw Hn Hm. cbn [call].
  unfold mbind at 1, M_bind at 1, lift at 1.
  rewrite (bind_self_positional _ _ _ Hkw).
  unfold mbind at 1, M_bind at 1.
  rewrite (class_named_names cs cs cls h l hk eq_refl), Hn.
  unfold mbind at 1, M_bind at 1, lift at 1. rewrite Hm.
  unfold mbind at 1, M_bind at 1, warnings_warn at 1. cbn.
  unfold mbind, M_bind.
  destruct (call orig _ _) as [[v|e] w']; reflexivity.
Qed.

(** *** What the assignment of "__init__" leaves as it was *)

Lemma mro_lookup_setattr_other cs cls co f k l :
  cs !! cls = Some co -> k <> "__init__" ->
  mro_lookup (setattr___init__ cls f cs) l k = mro_lookup cs l k.
Proof.
  intros Hcls Hk. rewrite (setattr___init___insert cs cls co f Hcls).
  induction l as [|c l IH]; [reflexivity|]. cbn.
  destruct (decide (c = cls)) as [->|Hne].
  - rewrite lookup_insert_eq, Hcls. cbn.
    rewrite lookup_insert_ne by congruence. rewrite IH. reflexivity.
  - rewrite lookup_insert_ne by congruence. rewrite IH. reflexivity.
Qed.

Lemma setattr_lookup cs cls co f c :
  cs !! cls = Some co ->
  setattr___init__ cls f cs !! c
  = (fun x => if decide (c = cls) then with___init__ f x else x) <$> cs !! c.
Proof.
  intros Hcls. rewrite (setattr___init___insert cs cls co f Hcls).
  destruct (decide (c = cls)) as [->|Hne].
  - rewrite lookup_insert_eq, Hcls. reflexivity.
  - rewrite lookup_insert_ne by congruence. destruct (cs !! c); reflexivity.
Qed.

Lemma setattr_lookup_mro cs cls co f c :
  cs !! cls = Some co ->
  c_mro <$> setattr___init__ cls f cs !! c = c_mro <$> cs !! c.
Proof.
  intros Hcls. rewrite (setattr_lookup cs cls co f c Hcls).
  destruct (cs !! c); [|reflexivity]. cbn. case_decide; reflexivity.
Qed.

Lemma getattr_mro_setattr_other cs cls co f c k :
  cs !! cls = Some co -> k <> "__init__" ->
  getattr_mro (setattr___init__ cls f cs) c k = getattr_mro cs c k.
Proof.
  intros Hcls Hk. unfold getattr_mro.
  pose proof (setattr_lookup_mro cs cls co f c Hcls) as Hm.
  destruct (setattr___init__ cls f cs !! c) as [x'|], (cs !! c) as [x|];
    cbn in Hm; try discriminate; [|reflexivity].
  injection Hm as Hm. cbn. rewrite Hm.
  exact (mro_lookup_setattr_other cs cls co f k (c :: c_mro x) Hcls Hk).
Qed.

Lemma getattr___new___setattr cs cls co f c :
  cs !! cls = Some co ->
  getattr___new__ (setattr___init__ cls f cs) c = getattr___new__ cs c.
Proof.
  intros Hcls. unfold getattr___new__.
  pose proof (setattr_lookup_mro cs cls co f c Hcls) as Hm.
  destruct (setattr___init__ cls f cs !! c) as [x'|], (cs !! c) as [x|];
    cbn in Hm; try discriminate; [|reflexivity].
  injection Hm as Hm. cbn. rewrite Hm.
  f_equal. f_equal. f_equal.
  exact (mro_lookup_setattr_other cs cls co f "__new__" (c :: c_mro x) Hcls
           ltac:(discriminate)).
Qed.

(** Along a list of classes the lookup of "__init__" after the assignment
    finds what it found before, or the function assigned. *)
Lemma mro_lookup_setattr_cases cs cls co f l :
  cs !! cls = Some co ->
((cls ∉ l)
   /\ mro_lookup (setattr___init__ cls f cs) l "__init__"
      = mro_lookup cs l "__init__")
  \/ ((cls ∈ l)
      /\ (mro_lookup (setattr___init__ cls f cs) l "__init__" = Some (AFunc f)
          \/ exists x,
              mro_lookup (setattr___init__ cls f cs) l "__init__" = Some x
              /\ mro_lookup cs l "__init__" = Some x)).
Proof.
  intros Hcls. induction l as [|c l IH].
  - left. split; [apply not_elem_of_nil|reflexivity].
  - destruct (decide (c = cls)) as [->|Hne].
    + right. split; [apply list_elem_of_here|]. left.
      apply (mro_lookup_setattr_head cs cls co f Hcls).
    + cbn. rewrite (setattr___init___insert cs cls co f Hcls).
      rewrite lookup_insert_ne by congruence.
      rewrite <- (setattr___init___insert cs cls co f Hcls).
      destruct (cs !! c ≫= _) as [x|].
      * destruct (decide (cls ∈ c :: l)) as [Hin|Hnin]; eauto 10.
      * destruct IH as [[Hn E] | [Hi E]].
        -- left. split; [|exact E]. rewrite not_elem_of_cons. auto.
        -- right. split; [apply list_elem_of_further, Hi|exact E].
Qed.

(** A class that had an initializer other than [object]'s answers the
    questions of [same_views] as before when a [new_init] is assigned to
    "__init__" of any class. *)
Lemma same_views_setattr cs cls co cl c0 orig c :
  cs !! cls = Some co ->
  tp_init_is_object_init cs c = false ->
  same_views (Some c) (setattr___init__ cls (new_init cl c0 orig) cs) cs.
Proof.
  intros Hcls Hf. set (f := new_init cl c0 orig).
  split; [apply (class_names_setattr cs cls co f Hcls)|].
  intros c' [= <-]. split.
  - unfold tp_init_is_object_init, getattr_mro in Hf |- *.
    pose proof (setattr_lookup_mro cs cls co f c Hcls) as Hm.
    destruct (setattr___init__ cls f cs !! c) as [x'|] eqn:E',
      (cs !! c) as [x|] eqn:E; cbn in Hm; try discriminate.
    injection Hm as Hm. cbn [mbind option_bind] in Hf |- *. rewrite Hm.
    destruct (mro_lookup_setattr_cases cs cls co f (c :: c_mro x) Hcls)
      as [[_ ->] | [Hin [-> | (y & -> & Hy)]]].
    + reflexivity.
    + rewrite Hf. reflexivity.
    + rewrite Hy. reflexivity.
  - unfold tp_new_is_object_new.
    rewrite (getattr_mro_setattr_other cs cls co f c "__new__" Hcls)
      by discriminate.
    reflexivity.
Qed.

Lemma same_views_trans oc cs1 cs2 cs3 :
  same_views oc cs1 cs2 -> same_views oc cs2 cs3 -> same_views oc cs1 cs3.
Proof.
  intros [E1 H1] [E2 H2]. split; [congruence|].
  intros c Hc. destruct (H1 c Hc) as [-> ->]. exact (H2 c Hc).
Qed.

Lemma tp_init_setattr_self cs cls co cl c0 orig :
  cs !! cls = Some co ->
  tp_init_is_object_init (setattr___init__ cls (new_init cl c0 orig) cs) cls
  = false.
Proof.
  intros Hcls. unfold tp_init_is_object_init, getattr_mro.
  rewrite (setattr_lookup cs cls co _ cls Hcls), Hcls.
  cbn [fmap option_fmap option_map mbind option_bind].
  rewrite (mro_lookup_setattr_head cs cls co _ Hcls). reflexivity.
Qed.

(** The initializer of a class whose [tp_init] is still [object]'s is
    [object.__init__], which returns [None] when it returns. *)
Lemma tp_init_getattr cs cls co :
  cs !! cls = Some co ->
  tp_init_is_object_init cs cls = true ->
  getattr___init__ cs cls = Some object___init__.
Proof.
  intros Hcls. unfold tp_init_is_object_init, getattr_mro, getattr___init__.
  rewrite Hcls. cbn [mbind option_bind].
  destruct (mro_lookup cs (cls :: c_mro co) "__init__") as [[[]|]|];
    try discriminate; reflexivity.
Qed.

Lemma object_init_returns a w v :
  (object_init a w).1 = Return v -> v = VNone.
Proof.
  unfold object_init.
  repeat match goal with
         | |- context [match ?x with _ => _ end] => destruct x
         | |- context [if ?x then _ else _] => destruct x
         end; cbn; congruence.
Qed.

(** *** Construction through the decorated class *)

Lemma allocate_frame (c : positive) (a : args) :
  forall h cs, exists r h' ws, forall cs' l hk,
    same_views (Some c) cs' cs ->
    getattr___new__ cs' c = getattr___new__ cs c ->
    allocate c a (World h cs' l hk) = (r, World h' cs' (l ++ ws) hk).
Proof.
  intros h cs. destruct (getattr___new__ cs c) as [new|] eqn:Hn.
  - destruct (call_frame new (Args (VClass c :: positional a) (keywords a)) h cs)
      as (r & h' & ws & H).
    exists r, h', ws. intros cs' l hk Hv Hg. unfold allocate.
    cbn [classes]. rewrite Hg. apply H, Hv.
  - exists (Raise (Exception RuntimeError "no such class")), h, [].
    intros cs' l hk Hv Hg. unfold allocate. cbn [classes]. rewrite Hg.
    rewrite app_nil_r. reflexivity.
Qed.

Lemma construct_instance cs d a h0 l hk obj h1 l1 init :
  allocate d a (World h0 cs l hk) = (Return obj, World h1 cs l1 hk) ->
  type_of h1 obj = Some d ->
  getattr___init__ cs d = Some init ->
  construct d a (World h0 cs l hk)
  = let '(r, w2) :=
      call init (Args (obj :: positional a) (keywords a))
        (World h1 cs l1 hk) in
    (init_result obj r, w2).
Proof.
  intros Ha Ht Hi. unfold construct. rewrite Ha. unfold isinstance.
  cbn [instances classes]. rewrite Ht. cbn.
  rewrite bool_decide_eq_true_2 by reflexivity. cbn. rewrite Hi. reflexivity.
Qed.

Lemma deprecated_class_decorator_eq cl cls orig h0 cs l hk :
  getattr___init__ cs cls = Some orig ->
  deprecated_class_decorator cl cls (World h0 cs l hk)
  = (Return cls,
     World h0 (setattr___init__ cls (new_init cl cls orig) cs) l hk).
Proof.
  intros H. unfold deprecated_class_decorator.
  cbn [classes instances warnings_log sys_excepthook]. rewrite H. reflexivity.
Qed.

Lemma class_names_lookup cs cls co :
  cs !! cls = Some co ->
  class_names cs !! cls = Some (Named (c_name co) (c_module co)).
Proof. intros H. unfold class_names. rewrite lookup_fmap, H. reflexivity. Qed.

Lemma type_of_class_of h obj d : type_of h obj = Some d -> class_of h obj = Some d.
Proof. destruct obj; cbn; congruence. Qed.

(** The construction of an instance of [d] in a store [cs'] that differs
    from [cs] by decorations, where the initializer of [d] is the
    [new_init] that a decoration of [cls] has put around [orig]: [d] is
    [cls] itself or a subclass that inherits the initializer. *)
Lemma construct_through_new_init cl cls co orig d a h0 cs cs' l hk obj w1 :
  cs !! cls = Some co ->
  kw_get "self" (keywords a) = None ->
  same_views (Some d) cs' cs ->
  getattr___new__ cs' d = getattr___new__ cs d ->
  allocate d a (World h0 cs l hk) = (Return obj, w1) ->
  type_of (instances w1) obj = Some d ->
  getattr___init__ cs' d = Some (new_init cl cls orig) ->
  exists msg h1 l1 ri h ws,
    craft_message (_deadline cl) (Named (c_name co) (c_module co))
      (replacement cl) (message cl) (_deadline cl) = Return msg
    /\ w1 = World h1 cs l1 hk
    /\ (forall cs'' l' hk', same_views (Some d) cs'' cs ->
          call orig (Args (obj :: positional a) (keywords a))
            (World h1 cs'' l' hk')
          = (ri, World h cs'' (l' ++ ws) hk'))
    /\ construct d a (World h0 cs' l hk)
       = (init_result obj (then_none ri),
          World h cs' (l1 ++ Warning (category cl) msg :: ws) hk).
Proof.
  intros Hcls Hkw Hv Hnew Ha Ht Hgd.
  destruct (allocate_frame d a h0 cs) as (r0 & h1 & ws0 & Hal).
  rewrite (Hal cs l hk (same_views_refl _ cs) eq_refl) in Ha.
  injection Ha as -> <-.
  cbn [instances classes warnings_log sys_excepthook] in *.
  destruct (craft_message_total (_deadline cl)
              (Named (c_name co) (c_module co)) (replacement cl) (message cl))
    as [msg Hm].
  set (A := Args (obj :: positional a) (keywords a)).
  destruct (call_frame orig A h1 cs) as (ri & h & ws & H).
  unfold A at 1 in H. unfold receiver in H.
  cbn [positional mbind option_bind] in H.
  rewrite (type_of_class_of _ _ _ Ht) in H.
  exists msg, h1, (l ++ ws0)%list, ri, h, ws.
  split; [exact Hm|]. split; [reflexivity|]. split; [exact H|].
  rewrite (construct_instance cs' d a h0 l hk obj h1 (l ++ ws0)%list
             (new_init cl cls orig) (Hal cs' l hk Hv Hnew) Ht Hgd).
  rewrite (call_new_init cl cls orig obj (positional a) (keywords a)
             h1 cs' (l ++ ws0)%list hk (Named (c_name co) (c_module co)) msg Hkw);
    [| rewrite (proj1 Hv); exact (class_names_lookup _ _ _ Hcls) | exact Hm].
  fold A. rewrite (H cs' _ hk Hv). rewrite <- app_assoc.
  destruct ri; reflexivity.
Qed.


(** ** The theorems at concrete inputs *)

Lemma install_excepthook_status_witness :
  PyStr.lower "Fancy" <> "color" /\ PyStr.lower "Fancy" <> "verbose"
  /\ install_excepthook
       (Some (Ultratb (fun kw h => (Return (UltraTB ColorTB kw), h, []))
                      (fun kw h => (Return (UltraTB VerboseTB kw), h, []))))
       "Fancy" [] Examples.world0
     = (Return 2, Examples.world0).
Proof.
  split; [discriminate|]. split; [discriminate|].
  apply (proj1 (proj2 install_excepthook_status)); discriminate.
Defined.




(** * Further properties of the deadline check *)

Lemma c_int_fits (n : Z) : fits_c_int n -> c_int n = Return n.
Proof.
  unfold fits_c_int, c_int. intros [Hl Hu].
  replace ((- 2 ^ 63 <=? n) && (n <? 2 ^ 63)) with true
    by (symmetry; apply andb_true_iff; split;
        [apply Z.leb_le | apply Z.ltb_lt]; lia).
  replace (2 ^ 31 <=? n) with false by (symmetry; apply Z.leb_gt; lia).
  replace (n <? - 2 ^ 31) with false by (symmetry; apply Z.ltb_ge; lia).
  reflexivity.
Qed.

Lemma c_int_cases (n : Z) :
  fits_c_int n /\ c_int n = Return n
  \/ ~ fits_c_int n
     /\ exists e, c_int n = Raise e /\ exc_type e = OverflowError.
Proof.
  destruct (Z_lt_dec n (- 2 ^ 31)) as [Hl|Hl];
    [|destruct (Z_lt_dec n (2 ^ 31)) as [Hu|Hu]].
  - right. split; [unfold fits_c_int; lia|]. unfold c_int.
    destruct (negb _); [eauto|].
    replace (2 ^ 31 <=? n) with false by (symmetry; apply Z.leb_gt; lia).
    replace (n <? - 2 ^ 31) with true by (symmetry; apply Z.ltb_lt; lia).
    eauto.
  - left. assert (F : fits_c_int n) by (unfold fits_c_int; lia).
    split; [exact F|apply c_int_fits, F].
  - right. split; [unfold fits_c_int; lia|]. unfold c_int.
    destruct (negb _); [eauto|].
    replace (2 ^ 31 <=? n) with true by (symmetry; apply Z.leb_le; lia).
    eauto.
Qed.

Lemma days_in_month_le (y m : Z) : days_in_month y m <= 31.
Proof.
  unfold days_in_month.
  repeat match goal with
         | |- context [if ?b then _ else _] => destruct b
         end; lia.
Qed.

Lemma calendar_date_fits (y m d : Z) :
  calendar_date (y, m, d) -> fits_c_int y /\ fits_c_int m /\ fits_c_int d.
Proof.
  unfold calendar_date, fits_c_int, MINYEAR, MAXYEAR.
  pose proof (days_in_month_le y m). lia.
Qed.

Lemma check_ymd_calendar (y m d : Z) :
  calendar_date (y, m, d) ->
  check_ymd y m d = Return (mk_datetime y m d 0 0 0 0).
Proof.
  unfold calendar_date, check_ymd. intros ([? ?] & [? ?] & [? ?]).
  repeat match goal with
         | |- context [?a <=? ?b] =>
             replace (a <=? b) with true by (symmetry; apply Z.leb_le; assumption)
         end.
  reflexivity.
Qed.

Lemma check_ymd_not_calendar (y m d : Z) :
  ~ calendar_date (y, m, d) ->
  exists e, check_ymd y m d = Raise e /\ exc_type e = ValueError.
Proof.
  unfold calendar_date, check_ymd. intros H.
  destruct (MINYEAR <=? y) eqn:E1, (y <=? MAXYEAR) eqn:E2; cbn [negb andb];
    eauto.
  destruct (1 <=? m) eqn:E3, (m <=? 12) eqn:E4; cbn [negb andb]; eauto.
  destruct (1 <=? d) eqn:E5, (d <=? days_in_month y m) eqn:E6;
    cbn [negb andb]; eauto.
  exfalso. apply H.
  repeat match goal with
         | E : (_ <=? _) = true |- _ => apply Z.leb_le in E
         end.
  auto.
Qed.

Lemma calendar_date_dec (ymd : Z * Z * Z) :
  calendar_date ymd \/ ~ calendar_date ymd.
Proof.
  destruct ymd as [[y m] d]. unfold calendar_date.
  destruct (Z_le_dec MINYEAR y), (Z_le_dec y MAXYEAR), (Z_le_dec 1 m),
    (Z_le_dec m 12), (Z_le_dec 1 d), (Z_le_dec d (days_in_month y m));
    tauto.
Qed.

Lemma datetime_ymd_calendar (y m d : Z) :
  calendar_date (y, m, d) ->
  datetime_ymd (y, m, d) = Return (mk_datetime y m d 0 0 0 0).
Proof.
  intros Hc. destruct (calendar_date_fits y m d Hc) as (Fy & Fm & Fd).
  unfold datetime_ymd.
  rewrite (c_int_fits y Fy), (c_int_fits m Fm), (c_int_fits d Fd).
  apply check_ymd_calendar, Hc.
Qed.

(** What the constructor does in each of the three cases. *)
Lemma datetime_ymd_cases (y m d : Z) :
  (calendar_date (y, m, d)
   /\ datetime_ymd (y, m, d) = Return (mk_datetime y m d 0 0 0 0))
  \/ (fits_c_int y /\ fits_c_int m /\ fits_c_int d
      /\ ~ calendar_date (y, m, d)
      /\ exists e, datetime_ymd (y, m, d) = Raise e
                   /\ exc_type e = ValueError)
  \/ (~ (fits_c_int y /\ fits_c_int m /\ fits_c_int d)
      /\ exists e, datetime_ymd (y, m, d) = Raise e
                   /\ exc_type e = OverflowError).
Proof.
  unfold datetime_ymd.
  destruct (c_int_cases y) as [[Fy ->] | [Fy (e & -> & He)]];
    [|right; right; split; [tauto|eauto]].
  destruct (c_int_cases m) as [[Fm ->] | [Fm (e & -> & He)]];
    [|right; right; split; [tauto|eauto]].
  destruct (c_int_cases d) as [[Fd ->] | [Fd (e & -> & He)]];
    [|right; right; split; [tauto|eauto]].
  destruct (calendar_date_dec (y, m, d)) as [Hc|Hn].
  - left. split; [exact Hc|apply check_ymd_calendar, Hc].
  - right. left. repeat (split; [assumption|]).
    apply check_ymd_not_calendar, Hn.
Qed.

Lemma datetime_ymd_raises (ymd : Z * Z * Z) (e : exception) :
  datetime_ymd ymd = Raise e ->
  exc_type e = ValueError \/ exc_type e = OverflowError.
Proof.
  destruct ymd as [[y m] d].
  destruct (datetime_ymd_cases y m d)
    as [[_ ->] | [(_ & _ & _ & _ & e' & -> & He) | (_ & e' & -> & He)]];
    [discriminate| |]; intros [= <-]; auto.
Qed.

Lemma raise_deadline_warning_class env d e :
  raise_deadline_warning env (Some d) = Raise e ->
  exc_type e <> ValueError /\ exc_type e <> OverflowError.
Proof.
  rewrite raise_deadline_warning_cases.
  destruct (_ && _); [|discriminate].
  unfold _is_in_owner_repo.
  destruct (git_config_get_remote_origin_url env) as [rc out|c m].
  - destruct (bool_decide _); [|discriminate]. intros [= <-].
    split; discriminate.
  - destruct c; cbn; [discriminate| |]; intros [= <-]; split; discriminate.
Qed.

(** X1. [deprecated] fails while it builds the date, in every environment
    and before the CI variable, the clock or git are looked at: with an
    [OverflowError] exactly when one of year, month, day does not fit a C
    [int], and with a [ValueError] exactly when all three fit and the
    triple is not a calendar date (year 1 to 9999, month 1 to 12, day
    within the month). *)
Theorem deprecated_date_errors (env : environment)
    (repl : option pyobj) (msg : string) (y m d : Z)
    (cat : warning_category) :
  ((exists e, deprecated env repl msg (Some (y, m, d)) cat = Raise e
              /\ exc_type e = OverflowError)
   <-> ~ (fits_c_int y /\ fits_c_int m /\ fits_c_int d))
  /\ ((exists e, deprecated env repl msg (Some (y, m, d)) cat = Raise e
                 /\ exc_type e = ValueError)
      <-> fits_c_int y /\ fits_c_int m /\ fits_c_int d
          /\ ~ calendar_date (y, m, d)).
Proof.
  assert (R : forall t, datetime_ymd (y, m, d) = Return t ->
              forall e, deprecated env repl msg (Some (y, m, d)) cat = Raise e ->
                        exc_type e <> ValueError /\ exc_type e <> OverflowError).
  { intros t Ht e. rewrite (deprecated_with_deadline _ _ _ _ _ _ Ht).
    destruct (raise_deadline_warning env (Some t)) as [[]|e'] eqn:Hr;
      [discriminate|].
    intros [= <-]. exact (raise_deadline_warning_class _ _ _ Hr). }
  assert (E : forall e, datetime_ymd (y, m, d) = Raise e ->
              deprecated env repl msg (Some (y, m, d)) cat = Raise e).
  { intros e He. unfold deprecated. rewrite He. reflexivity. }
  destruct (datetime_ymd_cases y m d)
    as [[Hc Ht] | [(Fy & Fm & Fd & Hn & e0 & H0 & Hv)
                  | (Hf & e0 & H0 & Hv)]].
  - pose proof (calendar_date_fits y m d Hc) as Hfit. split; split.
    + intros (e & He & Ho). destruct (R _ Ht e He). contradiction.
    + tauto.
    + intros (e & He & Ho). destruct (R _ Ht e He). contradiction.
    + tauto.
  - split; split.
    + intros (e & He & Ho). rewrite (E _ H0) in He. injection He as <-.
      congruence.
    + tauto.
    + tauto.
    + intros _. exists e0. split; [exact (E _ H0)|exact Hv].
  - split; split.
    + tauto.
    + intros _. exists e0. split; [exact (E _ H0)|exact Hv].
    + intros (e & He & Ho). rewrite (E _ H0) in He. injection He as <-.
      congruence.
    + tauto.
Qed.

(** X2. Git is asked only when a deadline is given, CI is set and the
    clock is past the deadline: without a deadline, or with CI unset, or
    with the clock not past the deadline, [deprecated] gives the same result
    whatever the git query would do, a query that raises included. *)
Theorem git_not_queried (env : environment) (g : subprocess_run)
    (repl : option pyobj) (msg : string) (deadline : option (Z * Z * Z))
    (cat : warning_category) :
  deadline = None
  \/ ~ ci_flag env
  \/ (exists ymd d, deadline = Some ymd /\ datetime_ymd ymd = Return d
                    /\ ~ after_deadline env d) ->
  deprecated (with_git g env) repl msg deadline cat
  = deprecated env repl msg deadline cat.
Proof.
  intros H. destruct deadline as [ymd|]; [|reflexivity].
  destruct (datetime_ymd ymd) as [d|e] eqn:Hd.
  2:{ unfold deprecated. rewrite Hd. reflexivity. }
  rewrite !(deprecated_with_deadline _ _ _ _ _ _ Hd).
  rewrite !raise_deadline_warning_cases.
  change (getenv (with_git g env) "CI") with (getenv env "CI").
  change (now (with_git g env)) with (now env).
  destruct H as [H | [H | (ymd' & d' & [= <-] & Hd' & H)]]; [discriminate| |].
  - unfold ci_flag in H. rewrite (bool_decide_eq_false_2 _ H). reflexivity.
  - assert (d' = d) as -> by congruence.
    unfold after_deadline in H. apply not_true_is_false in H. rewrite H.
    rewrite andb_false_r. reflexivity.
Qed.

Lemma git_not_queried_witness :
  ~ ci_flag MoreExamples.laptop
  /\ deprecated MoreExamples.laptop None "" (Some (2020, 1, 1)) FutureWarning
     = Return (Closure None "" (Some (mk_datetime 2020 1 1 0 0 0 0))
                 FutureWarning).
Proof.
  assert (H : ~ ci_flag MoreExamples.laptop) by (intros [x Hx]; discriminate).
  split; [exact H|].
  rewrite <- (git_not_queried MoreExamples.laptop (CompletedProcess 0 "")
                None "" (Some (2020, 1, 1)) FutureWarning
                (or_intror (or_introl H))).
  reflexivity.
Defined.

(** X3. In the owner's CI the escalation starts with the deadline day, not
    the day after: with the clock on the day of the deadline, [deprecated]
    raises the escalation error at every time of that day except midnight
    sharp. *)
Theorem escalation_on_the_deadline_day (env : environment)
    (repl : option pyobj) (msg : string) (y m d : Z)
    (cat : warning_category) :
  calendar_date (y, m, d) ->
  ci_flag env -> remote_is_owner env ->
  [year (now env); month (now env); day (now env)] = [y; m; d] ->
  Forall (fun x => 0 <= x) (time_of_day (now env)) ->
  deprecated env repl msg (Some (y, m, d)) cat
  = Raise (hard_deadline_exceeded (mk_datetime y m d 0 0 0 0))
  <-> time_of_day (now env) <> [0; 0; 0; 0].
Proof.
  intros Hc Hci Hr Hday Hpos.
  rewrite (deprecated_with_deadline _ _ _ _ _ _ (datetime_ymd_calendar _ _ _ Hc)).
  rewrite raise_deadline_warning_cases.
  rewrite (bool_decide_eq_true_2 _ Hci). cbn [andb].
  apply _is_in_owner_repo_true in Hr. rewrite Hr.
  unfold time_of_day in *.
  apply Forall_cons in Hpos as [Hh Hpos]. apply Forall_cons in Hpos as [Hm Hpos].
  apply Forall_cons in Hpos as [Hs Hpos]. apply Forall_cons in Hpos as [Hu _].
  pose proof (gt_midnight (now env) y m d Hh Hm Hs Hu) as G.
  destruct (Datetime.gt (now env) (mk_datetime y m d 0 0 0 0)) eqn:E.
  - split; [intros _|reflexivity].
    destruct (proj1 G eq_refl) as [Hgt | [_ Hne]]; [|exact Hne].
    rewrite Hday in Hgt. exfalso. clear -Hgt. cbn in Hgt.
    rewrite !Z.eqb_refl in Hgt. discriminate.
  - split; [discriminate|]. intros Hne.
    assert (true = true -> False) as X; [|destruct (X eq_refl)].
    intros _. assert (false = true) as F; [|discriminate F].
    apply G. right. split; [exact Hday|exact Hne].
Qed.

Lemma escalation_on_the_deadline_day_witness :
  calendar_date (2020, 1, 1)
  /\ ci_flag MoreExamples.owner_ci_on_the_day
  /\ remote_is_owner MoreExamples.owner_ci_on_the_day
  /\ deprecated MoreExamples.owner_ci_on_the_day None "" (Some (2020, 1, 1))
       FutureWarning
     = Raise (hard_deadline_exceeded (mk_datetime 2020 1 1 0 0 0 0)).
Proof.
  assert (Hc : calendar_date (2020, 1, 1)) by (cbv; intuition discriminate).
  assert (Hci : ci_flag MoreExamples.owner_ci_on_the_day)
    by (exists "true"; reflexivity).
  assert (Hr : remote_is_owner MoreExamples.owner_ci_on_the_day)
    by (exists 0, "https://github.com/acme/rocks"; split; reflexivity).
  split; [exact Hc|]. split; [exact Hci|]. split; [exact Hr|].
  apply (escalation_on_the_deadline_day MoreExamples.owner_ci_on_the_day
           None "" 2020 1 1 FutureWarning Hc Hci Hr eq_refl).
  - repeat constructor; cbn; lia.
  - discriminate.
Defined.

(** * Further properties of the ownership check *)

Lemma lstrip_by_head (p : ascii -> bool) (s : string) (c : ascii)
    (rest : string) :
  PyStr.lstrip_by p s = String c rest -> p c = false.
Proof.
  induction s as [|x s IH]; simpl; [discriminate|].
  destruct (p x) eqn:E; [exact IH|]. intros [= <- _]. exact E.
Qed.

Lemma rstrip_by_keeps_head (p : ascii -> bool) (c : ascii) (s : string) :
  p c = false -> exists r, PyStr.rstrip_by p (String c s) = String c r.
Proof.
  intros H. simpl. destruct (PyStr.rstrip_by p s); [rewrite H|]; eauto.
Qed.

Lemma rstrip_by_last (p : ascii -> bool) (s r : string) (z : ascii) :
  PyStr.rstrip_by p s = r +:+ String z EmptyString -> p z = false.
Proof.
  revert r. induction s as [|x s IH]; intros r; simpl.
  - destruct r; discriminate.
  - destruct (PyStr.rstrip_by p s) as [|y q] eqn:E.
    + destruct (p x) eqn:Ex; [destruct r; discriminate|].
      destruct r as [|x' r]; [intros [= <-]; exact Ex|].
      rewrite append_cons. intros [= _ H]. destruct r; discriminate.
    + destruct r as [|x' r]; [rewrite append_nil_l; discriminate|].
      rewrite append_cons. intros [= _ H]. exact (IH r H).
Qed.

Lemma mem_suffix_chars (c : ascii) :
  PyStr.mem c "git@github.com:" = false -> PyStr.mem c ".git" = false.
Proof.
  simpl.
  repeat match goal with
         | |- context [Ascii.eqb c ?x] => destruct (Ascii.eqb c x)
         end; congruence.
Qed.

(** What the normalization can give: a text that neither starts with a
    character of "git@github.com:" nor ends with a character of ".git". *)
Lemma owner_repo_edges (stdout : string) :
  (forall c rest, owner_repo stdout = String c rest ->
                  PyStr.mem c "git@github.com:" = false)
  /\ (forall r z, owner_repo stdout = r +:+ String z EmptyString ->
                  PyStr.mem z ".git" = false).
Proof.
  unfold owner_repo, PyStr.rstrip. split.
  - intros c rest.
    destruct (PyStr.lstrip "git@github.com:" _) as [|x q] eqn:E;
      [discriminate|].
    apply lstrip_by_head in E.
    destruct (rstrip_by_keeps_head (fun c => PyStr.mem c ".git") x q
                (mem_suffix_chars x E)) as [r Hr].
    rewrite Hr. intros [= <- _]. exact E.
  - intros r z H. exact (rstrip_by_last _ _ _ _ H).
Qed.

Lemma no_escalation_without_owner env repl msg deadline cat d :
  ~ remote_is_owner env ->
  deprecated env repl msg deadline cat <> Raise (hard_deadline_exceeded d).
Proof.
  intros Hn. destruct deadline as [ymd|]; [|discriminate].
  destruct (datetime_ymd ymd) as [t|e] eqn:Hd.
  - rewrite (deprecated_with_deadline _ _ _ _ _ _ Hd),
      raise_deadline_warning_cases.
    destruct (_ && _); [|discriminate].
    destruct (_is_in_owner_repo env) as [[|]|e] eqn:Ho; [|discriminate|].
    + exfalso. apply Hn, _is_in_owner_repo_true, Ho.
    + intros [= ->]. exact (_is_in_owner_repo_raises env _ d Ho eq_refl).
  - unfold deprecated. rewrite Hd. cbn. intros [= ->].
    apply datetime_ymd_raises in Hd. destruct Hd; discriminate.
Qed.

(** X4. When the identity expected in GITHUB_REPOSITORY starts with one of
    the characters of "git@github.com:" or ends with one of the characters
    of ".git" (as "matthewcarbone/monty" does), the ownership check never
    finds the owner's repository, whatever git prints, and [deprecated]
    never raises the escalation error. *)
Theorem owner_never_recognized (env : environment) (identity : string) :
  getenv env "GITHUB_REPOSITORY" = Some identity ->
  (exists c rest, identity = String c rest
                  /\ PyStr.mem c "git@github.com:" = true)
  \/ (exists r z, identity = r +:+ String z EmptyString
                  /\ PyStr.mem z ".git" = true) ->
  ~ remote_is_owner env
  /\ forall repl msg deadline cat d,
       deprecated env repl msg deadline cat
       <> Raise (hard_deadline_exceeded d).
Proof.
  intros Hid Hbad.
  assert (Hn : ~ remote_is_owner env).
  { intros (rc & out & _ & Heq). rewrite Hid in Heq. injection Heq as ->.
    destruct (owner_repo_edges out) as [Hfirst Hlast].
    destruct Hbad as [(c & rest & E & Hc) | (r & z & E & Hz)].
    - rewrite (Hfirst c rest E) in Hc. discriminate.
    - rewrite (Hlast r z E) in Hz. discriminate. }
  split; [exact Hn|]. intros repl msg deadline cat d.
  apply no_escalation_without_owner, Hn.
Qed.

Lemma owner_never_recognized_witness :
  getenv MoreExamples.monty_ci "GITHUB_REPOSITORY"
  = Some "matthewcarbone/monty"
  /\ PyStr.mem "m" "git@github.com:" = true
  /\ deprecated MoreExamples.monty_ci None "" (Some (2020, 1, 1)) FutureWarning
     <> Raise (hard_deadline_exceeded (mk_datetime 2020 1 1 0 0 0 0)).
Proof.
  split; [reflexivity|]. split; [reflexivity|].
  apply (owner_never_recognized MoreExamples.monty_ci "matthewcarbone/monty"
           eq_refl).
  left. exists "m"%char, "atthewcarbone/monty". split; reflexivity.
Defined.

Lemma lstrip_by_all (p : ascii -> bool) (t : string) :
  all_chars p t = true -> PyStr.lstrip_by p t = EmptyString.
Proof.
  induction t as [|c t IH]; simpl; [reflexivity|].
  intros [Hc Ht]%andb_true_iff. rewrite Hc. exact (IH Ht).
Qed.

Lemma strip_surrounding (a s b : string) :
  all_chars PyStr.isspace a = true -> all_chars PyStr.isspace b = true ->
  PyStr.strip (a +:+ s +:+ b) = PyStr.strip s.
Proof.
  intros Ha Hb. unfold PyStr.strip. rewrite (lstrip_by_app _ a _ Ha).
  induction s as [|x s IH].
  - rewrite append_nil_l, (lstrip_by_all _ b Hb). reflexivity.
  - rewrite append_cons. simpl. destruct (PyStr.isspace x) eqn:E; [exact IH|].
    rewrite <- append_cons. apply rstrip_by_app, Hb.
Qed.

(** X5. White space around the output of the git query, such as the line
    break git prints after the URL, does not change the normalized
    identity. *)
Theorem owner_repo_ignores_surrounding_whitespace (a s b : string) :
  all_chars PyStr.isspace a = true -> all_chars PyStr.isspace b = true ->
  owner_repo (a +:+ s +:+ b) = owner_repo s.
Proof.
  intros Ha Hb. unfold owner_repo. rewrite (strip_surrounding a s b Ha Hb).
  reflexivity.
Qed.

Lemma owner_repo_ignores_surrounding_whitespace_witness :
  all_chars PyStr.isspace "  " = true
  /\ all_chars PyStr.isspace PyStr.newline = true
  /\ owner_repo ("  " +:+ "git@github.com:acme/rocks.git" +:+ PyStr.newline)
     = owner_repo "git@github.com:acme/rocks.git".
Proof.
  split; [reflexivity|]. split; [reflexivity|].
  apply (owner_repo_ignores_surrounding_whitespace
           "  " "git@github.com:acme/rocks.git" PyStr.newline);
    reflexivity.
Defined.

Lemma owner_repo_ssh_clone_witness :
  PyStr.mem "a" "git@github.com:" = false
  /\ PyStr.mem "s" ".git" = false
  /\ owner_repo "git@github.com:acme/rocks.git" = "acme/rocks".
Proof.
  split; [reflexivity|]. split; [reflexivity|].
  apply (owner_repo_ssh_clone "a" "s" "cme" "rock"); reflexivity.
Defined.

Lemma owner_repo_https_clone_witness :
  PyStr.mem "a" "https://github.com/" = false
  /\ PyStr.mem "a" "git@github.com:" = false
  /\ PyStr.mem "s" ".git" = false
  /\ PyStr.isspace "s" = false
  /\ owner_repo "https://github.com/acme/rocks" = "acme/rocks".
Proof.
  repeat (split; [reflexivity|]).
  apply (owner_repo_https_clone "a" "s" "cme" "rock"); reflexivity.
Defined.

Lemma git_missing_skips_escalation_witness :
  git_config_get_remote_origin_url MoreExamples.ci_without_git
  = RunRaises ENOENT "[Errno 2] No such file or directory: 'git'"
  /\ datetime_ymd (2020, 1, 1) = Return (mk_datetime 2020 1 1 0 0 0 0)
  /\ deprecated MoreExamples.ci_without_git None "" (Some (2020, 1, 1))
       FutureWarning
     = Return (Closure None "" (Some (mk_datetime 2020 1 1 0 0 0 0))
                 FutureWarning).
Proof.
  split; [reflexivity|]. split; [reflexivity|].
  apply (git_missing_skips_escalation MoreExamples.ci_without_git None ""
           (2020, 1, 1) FutureWarning (mk_datetime 2020 1 1 0 0 0 0)
           "[Errno 2] No such file or directory: 'git'" eq_refl eq_refl).
Defined.

Lemma _is_in_owner_repo_no_answer_witness :
  git_config_get_remote_origin_url Examples.ci_without_origin
  = CompletedProcess 1 ""
  /\ _is_in_owner_repo Examples.ci_without_origin = Return true.
Proof.
  split; [reflexivity|].
  rewrite (_is_in_owner_repo_no_answer Examples.ci_without_origin 1 eq_refl).
  reflexivity.
Defined.

(** * Further properties of the message and of the wrappers *)

Lemma append_nil_r (s : string) : s = s +:+ "".
Proof.
  induction s as [|x s IH]; [reflexivity|].
  rewrite append_cons. f_equal. exact IH.
Qed.

Lemma craft_message_starts (d : option datetime) (old : named)
    (r : option pyobj) (m : string) :
  exists rest, craft_message d old r m d
               = Return (__name__ old +:+ " is deprecated" +:+ rest).
Proof.
  unfold craft_message.
  destruct d as [t|], r as [o|], m as [|c m]; cbn;
    eexists; rewrite ?append_assoc;
    try reflexivity; f_equal; f_equal; try apply append_nil_r; reflexivity.
Qed.

(** X10. The shape of the warning text: it always starts with the name of
    the target followed by " is deprecated"; with a deadline the date and a
    line break come next; a free text that is not empty is always its last
    line; and with no deadline, no replacement and no free text it is the
    name and " is deprecated" alone. *)
Theorem craft_message_shape (d : option datetime) (old : named)
    (r : option pyobj) (m : string) :
  (exists rest, craft_message d old r m d
                = Return (__name__ old +:+ " is deprecated" +:+ rest))
  /\ (forall t, d = Some t ->
        exists rest, craft_message d old r m d
                     = Return (__name__ old
                               +:+ " is deprecated, and will be removed on "
                               +:+ strftime_Ymd t +:+ PyStr.newline +:+ rest))
  /\ (m <> "" ->
      exists pre, craft_message d old r m d
                  = Return (pre +:+ PyStr.newline +:+ m))
  /\ (d = None -> r = None -> m = "" ->
      craft_message d old r m d = Return (__name__ old +:+ " is deprecated")).
Proof.
  split; [apply craft_message_starts|split; [|split]].
  - intros t ->. unfold craft_message.
    destruct r as [o|], m as [|c m]; cbn;
      eexists; rewrite ?append_assoc;
      try reflexivity; repeat f_equal; try apply append_nil_r; reflexivity.
  - intros Hm. unfold craft_message.
    destruct m as [|c m]; [contradiction|].
    destruct d as [t|], r as [o|]; cbn; eexists; reflexivity.
  - intros -> -> ->. reflexivity.
Qed.

Lemma call_wrapped cl old a h cs l hk msg :
  craft_message (_deadline cl) (func_named old) (replacement cl) (message cl)
    (_deadline cl) = Return msg ->
  call (wrapped cl old) a (World h cs l hk)
  = call old a (World h cs (l ++ [Warning (category cl) msg]) hk).
Proof. intros Hm. cbn [call]. unfold_M. rewrite Hm. reflexivity. Qed.

(** X11. Deprecating a function twice: a call logs two warnings, the outer
    decorator's first, and returns what the original returns.  The outer
    warning does not name the function: the wrapper it decorates is called
    "wrapped", and so its text starts with "wrapped is deprecated". *)
Theorem deprecated_twice_on_function (cl1 cl2 : closure) (old : func)
    (a : args) (w : world) :
  exists m1 rest r h ws,
    craft_message (_deadline cl1) (func_named old) (replacement cl1)
      (message cl1) (_deadline cl1) = Return m1
    /\ call old a w
       = (r, World h (classes w) (warnings_log w ++ ws) (sys_excepthook w))
    /\ call (deprecated_function_decorator cl2
               (deprecated_function_decorator cl1 old)) a w
       = (r, World h (classes w)
               (warnings_log w
                ++ Warning (category cl2) ("wrapped is deprecated" +:+ rest)
                   :: Warning (category cl1) m1 :: ws)
               (sys_excepthook w)).
Proof.
  destruct w as [h0 cs l hk]. cbn [classes warnings_log sys_excepthook].
  destruct (craft_message_total (_deadline cl1) (func_named old)
              (replacement cl1) (message cl1)) as [m1 H1].
  destruct (craft_message_starts (_deadline cl2)
              (func_named (wrapped cl1 old)) (replacement cl2)
              (message cl2)) as [rest H2].
  destruct (call_frame old a h0 cs) as (r & h & ws & H).
  exists m1, rest, r, h, ws. split; [exact H1|].
  split; [apply H, same_views_refl|].
  unfold deprecated_function_decorator.
  rewrite (call_wrapped cl2 (wrapped cl1 old) a h0 cs l hk _ H2).
  rewrite (call_wrapped cl1 old a h0 cs _ hk _ H1).
  rewrite (H cs _ hk (same_views_refl _ cs)). rewrite <- !app_assoc.
  reflexivity.
Qed.

(** X12. The order of a failing guard and a deprecation matters.  With the
    guard outside, a call raises the guard's error and logs nothing; with
    the deprecation outside, the warning is logged first, naming the guarded
    function by its own name, and then the guard's error is raised. *)
Theorem guard_and_deprecation_order (cl : closure) (msg : string)
    (err : exc_class) (f : func) (a : args) (w : world) :
  call (requires___call__ (Requires false msg err)
          (deprecated_function_decorator cl f)) a w
  = (Raise (Exception err msg), w)
  /\ exists rest,
      call (deprecated_function_decorator cl
              (requires___call__ (Requires false msg err) f)) a w
      = (Raise (Exception err msg),
         World (instances w) (classes w)
           (warnings_log w
            ++ [Warning (category cl)
                  (__name__ (func_named f) +:+ " is deprecated" +:+ rest)])
           (sys_excepthook w)).
Proof.
  split; [reflexivity|].
  destruct (craft_message_starts (_deadline cl) (func_named f)
              (replacement cl) (message cl)) as [rest H].
  exists rest. destruct w as [h cs l hk].
  unfold deprecated_function_decorator, requires___call__.
  rewrite (call_wrapped cl (decorated (Requires false msg err) f)
             a h cs l hk _ H).
  reflexivity.
Qed.

(** X13. Guards stacked on one callable are checked from the outside in: a
    call raises the error of the outermost guard whose condition does not
    hold, with its class and message and without touching the store, and
    reaches the callable only when every condition holds.  The guarded
    callable keeps the name of the original. *)
Theorem guarded_call (guards : list requires) (f : func) (a : args)
    (w : world) :
  call (guarded guards f) a w
  = match first_failing guards with
    | Some r => (Raise (Exception (self_err_cls r) (self_message r)), w)
    | None => call f a w
    end
  /\ func_named (guarded guards f) = func_named f.
Proof.
  induction guards as [|g gs [IHc IHn]]; [split; reflexivity|].
  split; [|exact IHn].
  unfold guarded, first_failing in *. cbn [fold_right List.find].
  unfold requires___call__ at 1. cbn [call].
  destruct (self_condition g); cbn [negb]; [exact IHc|reflexivity].
Qed.

(** X14. When the library is there and the hook name is known but building
    the hook object raises (keyword arguments it does not take), the
    exception leaves [install_excepthook]: no status is returned and
    [sys.excepthook] stays as it was; nothing changes but what the
    formatter itself did before it raised (warnings it emitted, objects it
    touched). *)
Theorem install_excepthook_formatter_raises (lib : ultratb)
    (hook_type : string) (kwargs : list (string * value)) (w : world)
    (e : exception) (insts : gmap positive instance) (ws : list warning) :
  PyStr.lower hook_type = "color"
  /\ ultratb_ColorTB lib kwargs (instances w) = (Raise e, insts, ws)
  \/ PyStr.lower hook_type = "verbose"
     /\ ultratb_VerboseTB lib kwargs (instances w) = (Raise e, insts, ws) ->
  install_excepthook (Some lib) hook_type kwargs w
  = (Raise e,
     World insts (classes w) (warnings_log w ++ ws) (sys_excepthook w)).
Proof.
  intros H. unfold install_excepthook. rewrite hooks_lookup.
  destruct H as [[Hn He] | [Hn He]]; rewrite Hn;
    repeat case_decide; try discriminate; try contradiction;
    unfold_M; unfold run_formatter; rewrite He; reflexivity.
Qed.

Lemma install_excepthook_formatter_raises_witness :
  PyStr.lower "Color" = "color"
  /\ ultratb_ColorTB MoreExamples.strict_ultratb [("width", VInt 80)]
       (instances Examples.world0)
     = (Raise (Exception TypeError "unexpected keyword argument"),
        instances Examples.world0, [])
  /\ install_excepthook (Some MoreExamples.strict_ultratb) "Color"
       [("width", VInt 80)] Examples.world0
     = (Raise (Exception TypeError "unexpected keyword argument"),
        Examples.world0).
Proof.
  split; [reflexivity|]. split; [reflexivity|].
  apply (install_excepthook_formatter_raises MoreExamples.strict_ultratb
           "Color" [("width", VInt 80)] Examples.world0).
  left. split; reflexivity.
Defined.

(** * Further properties of decorated classes *)

(** X15. Decoration hides an initializer that returns a value.  Let the
    arguments have no keyword named "self" and [__new__] return a new
    instance of the class itself.  Where the original initializer, run on
    that instance, returns something other than [None], constructing
    through the original class raises the [TypeError] of the construction;
    through the decorated class, whose [new_init] returns nothing, the same
    arguments yield the instance. *)
Theorem decoration_hides_initializer_result (cl : closure) (cls : positive)
    (co : pyclass) (a : args) (w : world) (orig : func) (v obj : value)
    (w1 : world) :
  classes w !! cls = Some co ->
  kw_get "self" (keywords a) = None ->
  getattr___init__ (classes w) cls = Some orig ->
  allocate cls a w = (Return obj, w1) ->
  type_of (instances w1) obj = Some cls ->
  (call orig (Args (obj :: positional a) (keywords a)) w1).1 = Return v ->
  v <> VNone ->
  (construct cls a w).1
  = Raise (Exception TypeError "__init__() should return None")
  /\ (construct cls a (deprecated_class_decorator cl cls w).2).1
     = Return obj.
Proof.
  intros Hcls Hkw Ho Ha Ht Hv Hne. destruct w as [h0 cs l hk].
  cbn [classes instances warnings_log sys_excepthook fst snd] in *.
  assert (Hinit : tp_init_is_object_init cs cls = false).
  { destruct (tp_init_is_object_init cs cls) eqn:E; [|reflexivity].
    rewrite (tp_init_getattr cs cls co Hcls E) in Ho. injection Ho as <-.
    cbn [call] in Hv. apply object_init_returns in Hv. contradiction. }
  set (f := new_init cl cls orig).
  destruct (construct_through_new_init cl cls co orig cls a h0 cs
              (setattr___init__ cls f cs) l hk obj w1 Hcls Hkw
              (same_views_setattr cs cls co cl cls orig cls Hcls Hinit)
              (getattr___new___setattr cs cls co f cls Hcls) Ha Ht
              (getattr_setattr_self cs cls co f Hcls))
    as (msg & h1 & l1 & ri & h & ws & Hm & -> & Hcall & Hdec).
  cbn [instances] in Ht.
  rewrite (Hcall cs l1 hk (same_views_refl _ cs)) in Hv. cbn [fst] in Hv.
  subst ri. split.
  - rewrite (construct_instance cs cls a h0 l hk obj h1 l1 orig Ha Ht Ho).
    rewrite (Hcall cs l1 hk (same_views_refl _ cs)). cbn.
    destruct v; congruence.
  - rewrite (deprecated_class_decorator_eq cl _ _ _ _ _ _ Ho). cbn [snd].
    fold f. rewrite Hdec. reflexivity.
Qed.

Lemma decoration_hides_initializer_result_witness :
  classes MoreExamples.world1 !! 3%positive = Some MoreExamples.Broken
  /\ kw_get "self" (keywords (Args [] [])) = None
  /\ allocate 3 (Args [] []) MoreExamples.world1
     = (Return (VObj 1),
        World {[ 1%positive := Instance 3 ∅ ]} (classes MoreExamples.world1)
          [] DefaultHook)
  /\ (construct 3 (Args [] []) MoreExamples.world1).1
     = Raise (Exception TypeError "__init__() should return None")
  /\ (construct 3 (Args [] [])
        (deprecated_class_decorator Examples.spec_2020 3
           MoreExamples.world1).2).1
     = Return (VObj 1).
Proof.
  split; [reflexivity|]. split; [reflexivity|].
  assert (Ha : allocate 3 (Args [] []) MoreExamples.world1
               = (Return (VObj 1),
                  World {[ 1%positive := Instance 3 ∅ ]}
                    (classes MoreExamples.world1) [] DefaultHook))
    by (vm_compute; reflexivity).
  split; [exact Ha|].
  apply (decoration_hides_initializer_result Examples.spec_2020 3
           MoreExamples.Broken (Args [] []) MoreExamples.world1
           MoreExamples.init_returns_int (VInt 5) (VObj 1) _
           eq_refl eq_refl eq_refl Ha);
    [reflexivity | reflexivity | discriminate].
Defined.

(** X16. A subclass that inherits its initializer from a decorated class
    is deprecated with it, under the name of the base.  Let the initializer
    the subclass inherits not be the one of [object], the arguments have no
    keyword named "self", and [__new__] return a new instance of the
    subclass itself.  Then constructing the subclass logs one warning whose
    text is crafted from the name of the decorated class, not of the
    subclass, and then runs the base's original initializer on the new
    instance with the unchanged arguments. *)
Theorem subclass_construction_warns_about_base (cl : closure)
    (cls d : positive) (co do : pyclass) (pre post : list positive)
    (a : args) (w : world) (obj : value) (w1 : world) :
  classes w !! cls = Some co ->
  classes w !! d = Some do -> d <> cls ->
  c_mro do = (pre ++ cls :: post)%list ->
  mro_lookup (classes w) (d :: pre) "__init__" = None ->
  tp_init_is_object_init (classes w) d = false ->
  kw_get "self" (keywords a) = None ->
  allocate d a w = (Return obj, w1) ->
  type_of (instances w1) obj = Some d ->
  exists orig w_dec msg ri h ws,
    getattr___init__ (classes w) cls = Some orig
    /\ deprecated_class_decorator cl cls w = (Return cls, w_dec)
    /\ craft_message (_deadline cl) (Named (c_name co) (c_module co))
         (replacement cl) (message cl) (_deadline cl) = Return msg
    /\ call orig (Args (obj :: positional a) (keywords a)) w1
       = (ri, World h (classes w) (warnings_log w1 ++ ws) (sys_excepthook w))
    /\ construct d a w_dec
       = (init_result obj (then_none ri),
          World h (classes w_dec)
            (warnings_log w1 ++ Warning (category cl) msg :: ws)
            (sys_excepthook w)).
Proof.
  intros Hcls Hd Hne Hmro Hnone Hinit Hkw Ha Ht. destruct w as [h0 cs l hk].
  cbn [classes instances warnings_log sys_excepthook] in *.
  destruct (getattr___init___some _ _ _ Hcls) as [orig Ho].
  set (f := new_init cl cls orig).
  destruct (construct_through_new_init cl cls co orig d a h0 cs
              (setattr___init__ cls f cs) l hk obj w1 Hcls Hkw
              (same_views_setattr cs cls co cl cls orig d Hcls Hinit)
              (getattr___new___setattr cs cls co f d Hcls) Ha Ht
              (getattr_setattr_subclass cs cls co f Hcls d do pre post
                 Hd Hne Hmro Hnone))
    as (msg & h1 & l1 & ri & h & ws & Hm & -> & Hcall & Hdec).
  cbn [warnings_log].
  exists orig, (World h0 (setattr___init__ cls f cs) l hk), msg, ri, h, ws.
  split; [exact Ho|].
  split; [exact (deprecated_class_decorator_eq cl _ _ _ _ _ _ Ho)|].
  split; [exact Hm|].
  split; [exact (Hcall cs l1 hk (same_views_refl _ cs))|exact Hdec].
Qed.

Lemma subclass_construction_warns_about_base_witness :
  classes MoreExamples.world1 !! 1%positive = Some Examples.Foo
  /\ classes MoreExamples.world1 !! 2%positive = Some MoreExamples.Bar
  /\ tp_init_is_object_init (classes MoreExamples.world1) 2 = false
  /\ allocate 2 (Args [] []) MoreExamples.world1
     = (Return (VObj 1),
        World {[ 1%positive := Instance 2 ∅ ]} (classes MoreExamples.world1)
          [] DefaultHook)
  /\ exists w_dec h,
      deprecated_class_decorator Examples.spec_2020 1 MoreExamples.world1
      = (Return 1%positive, w_dec)
      /\ construct 2 (Args [] []) w_dec
         = (Return (VObj 1),
            World h (classes w_dec)
              [Warning FutureWarning
                 ("Foo is deprecated, and will be removed on 2020-01-01"
                  +:+ PyStr.newline +:+ "Use bar in pkg.mod instead.")]
              DefaultHook).
Proof.
  split; [reflexivity|]. split; [reflexivity|]. split; [reflexivity|].
  assert (Ha : allocate 2 (Args [] []) MoreExamples.world1
               = (Return (VObj 1),
                  World {[ 1%positive := Instance 2 ∅ ]}
                    (classes MoreExamples.world1) [] DefaultHook))
    by (vm_compute; reflexivity).
  split; [exact Ha|].
  destruct (subclass_construction_warns_about_base Examples.spec_2020 1 2
              Examples.Foo MoreExamples.Bar [] [] (Args [] [])
              MoreExamples.world1 (VObj 1)
              (World {[ 1%positive := Instance 2 ∅ ]}
                 (classes MoreExamples.world1) [] DefaultHook)
              eq_refl eq_refl)
    as (orig & w_dec & msg & ri & h & ws & Ho & Hd & Hm & H0 & H1);
    [discriminate | reflexivity | reflexivity | reflexivity | reflexivity
    | exact Ha | reflexivity |].
  exists w_dec, h.
  split; [exact Hd|].
  vm_compute in Ho. injection Ho as <-.
  vm_compute in Hm. injection Hm as <-.
  vm_compute in H0. injection H0 as <- _ <-. exact H1.
Defined.

(** X17. Deprecating a class twice stacks the initializers: the class's
    "__init__" becomes the second [new_init] around the first around the
    original.  Let the original initializer not be the one of [object],
    the arguments have no keyword named "self", and [__new__] return a new
    instance of the class itself.  Then a construction logs two warnings,
    the second decorator's first, both under the name of the class, before
    the original initializer runs once on the instance with the unchanged
    arguments. *)
Theorem class_deprecated_twice (cl1 cl2 : closure) (cls : positive)
    (co : pyclass) (a : args) (w : world) (obj : value) (wn : world) :
  classes w !! cls = Some co ->
  tp_init_is_object_init (classes w) cls = false ->
  kw_get "self" (keywords a) = None ->
  allocate cls a w = (Return obj, wn) ->
  type_of (instances wn) obj = Some cls ->
  exists orig w1 w2 m1 m2 ri h ws,
    getattr___init__ (classes w) cls = Some orig
    /\ deprecated_class_decorator cl1 cls w = (Return cls, w1)
    /\ deprecated_class_decorator cl2 cls w1 = (Return cls, w2)
    /\ getattr___init__ (classes w2) cls
       = Some (new_init cl2 cls (new_init cl1 cls orig))
    /\ craft_message (_deadline cl1) (Named (c_name co) (c_module co))
         (replacement cl1) (message cl1) (_deadline cl1) = Return m1
    /\ craft_message (_deadline cl2) (Named (c_name co) (c_module co))
         (replacement cl2) (message cl2) (_deadline cl2) = Return m2
    /\ call orig (Args (obj :: positional a) (keywords a)) wn
       = (ri, World h (classes w) (warnings_log wn ++ ws) (sys_excepthook w))
    /\ construct cls a w2
       = (init_result obj (then_none ri),
          World h (classes w2)
            (warnings_log wn
             ++ Warning (category cl2) m2 :: Warning (category cl1) m1 :: ws)
            (sys_excepthook w)).
Proof.
  intros Hcls Hinit Hkw Ha Ht. destruct w as [h0 cs l hk].
  cbn [classes instances warnings_log sys_excepthook] in *.
  destruct (getattr___init___some _ _ _ Hcls) as [orig Ho].
  set (n := Named (c_name co) (c_module co)).
  destruct (craft_message_total (_deadline cl1) n (replacement cl1)
              (message cl1)) as [m1 Hm1].
  set (f1 := new_init cl1 cls orig).
  set (cs1 := setattr___init__ cls f1 cs).
  assert (Hcls1 : cs1 !! cls = Some (with___init__ f1 co)).
  { unfold cs1. rewrite (setattr___init___insert cs cls co f1 Hcls).
    apply lookup_insert_eq. }
  assert (Ho1 : getattr___init__ cs1 cls = Some f1)
    by exact (getattr_setattr_self cs cls co f1 Hcls).
  set (f2 := new_init cl2 cls f1).
  set (cs2 := setattr___init__ cls f2 cs1).
  assert (Hv1 : same_views (Some cls) cs1 cs)
    by exact (same_views_setattr cs cls co cl1 cls orig cls Hcls Hinit).
  assert (Hv2 : same_views (Some cls) cs2 cs).
  { apply (same_views_trans _ cs2 cs1 cs); [|exact Hv1].
    apply (same_views_setattr cs1 cls _ cl2 cls f1 cls Hcls1).
    exact (tp_init_setattr_self cs cls co cl1 cls orig Hcls). }
  assert (Hnew : getattr___new__ cs2 cls = getattr___new__ cs cls).
  { unfold cs2. rewrite (getattr___new___setattr cs1 cls _ f2 cls Hcls1).
    exact (getattr___new___setattr cs cls co f1 cls Hcls). }
  assert (Ho2 : getattr___init__ cs2 cls = Some f2)
    by exact (getattr_setattr_self cs1 cls _ f2 Hcls1).
  destruct (construct_through_new_init cl2 cls co f1 cls a h0 cs cs2 l hk
              obj wn Hcls Hkw Hv2 Hnew Ha Ht Ho2)
    as (m2 & h1 & l1 & r1 & h & ws1 & Hm2 & -> & Hcall & Hdec).
  cbn [warnings_log].
  destruct (call_frame orig (Args (obj :: positional a) (keywords a)) h1 cs)
    as (ri & h' & ws & H).
  pose proof (H cs (l1 ++ [Warning (category cl1) m1])%list hk
                (same_views_refl _ cs)) as Hc1.
  pose proof (Hcall cs l1 hk (same_views_refl _ cs)) as Hc.
  unfold f1 at 1 in Hc.
  rewrite (call_new_init cl1 cls orig obj (positional a) (keywords a)
             h1 cs l1 hk n m1 Hkw (class_names_lookup _ _ _ Hcls) Hm1) in Hc.
  rewrite Hc1 in Hc. injection Hc as <- <- Hws.
  rewrite <- app_assoc in Hws. apply app_inv_head in Hws. subst ws1.
  exists orig, (World h0 cs1 l hk), (World h0 cs2 l hk), m1, m2, ri, h', ws.
  split; [exact Ho|].
  split; [exact (deprecated_class_decorator_eq cl1 _ _ _ _ _ _ Ho)|].
  split; [exact (deprecated_class_decorator_eq cl2 _ _ _ _ _ _ Ho1)|].
  cbn [classes].
  split; [exact Ho2|]. split; [exact Hm1|]. split; [exact Hm2|].
  split; [apply H, same_views_refl|].
  rewrite Hdec. destruct ri; reflexivity.
Qed.

Lemma class_deprecated_twice_witness :
  classes Examples.world0 !! 1%positive = Some Examples.Foo
  /\ tp_init_is_object_init (classes Examples.world0) 1 = false
  /\ kw_get "self" (keywords (Args [VInt 7] [])) = None
  /\ allocate 1 (Args [VInt 7] []) Examples.world0
     = (Return (VObj 1),
        World {[ 1%positive := Instance 1 ∅ ]} (classes Examples.world0)
          [] DefaultHook)
  /\ exists w1 w2,
      deprecated_class_decorator Examples.spec_2020 1 Examples.world0
      = (Return 1%positive, w1)
      /\ deprecated_class_decorator Examples.spec_2020 1 w1
         = (Return 1%positive, w2)
      /\ length (warnings_log (construct 1 (Args [VInt 7] []) w2).2) = 2%nat.
Proof.
  split; [reflexivity|]. split; [reflexivity|]. split; [reflexivity|].
  assert (Ha : allocate 1 (Args [VInt 7] []) Examples.world0
               = (Return (VObj 1),
                  World {[ 1%positive := Instance 1 ∅ ]}
                    (classes Examples.world0) [] DefaultHook))
    by (vm_compute; reflexivity).
  split; [exact Ha|].
  destruct (class_deprecated_twice Examples.spec_2020 Examples.spec_2020 1
              Examples.Foo (Args [VInt 7] []) Examples.world0 (VObj 1)
              (World {[ 1%positive := Instance 1 ∅ ]}
                 (classes Examples.world0) [] DefaultHook)
              eq_refl eq_refl eq_refl Ha eq_refl)
    as (orig & w1 & w2 & m1 & m2 & ri & h & ws
        & Ho & Hd1 & Hd2 & _ & _ & _ & H0 & H1).
  exists w1, w2. split; [exact Hd1|]. split; [exact Hd2|].
  rewrite H1. cbn [snd warnings_log].
  vm_compute in Ho. injection Ho as <-.
  vm_compute in H0. injection H0 as _ _ <-. reflexivity.
Defined.

(** X19. Decorating a class that takes its arguments in a [__new__] of its
    own and leaves the initializer to [object] breaks it.  Constructed with
    arguments, the original class yields the instance its [__new__] made:
    [object.__init__] lets the arguments pass, since the class has a
    [__new__] of its own.  After the decoration the class has an
    initializer of its own, [new_init], which hands the arguments on to
    [object.__init__]: the construction logs the warning and then raises a
    [TypeError]. *)
Theorem decorated_object_init_rejects_arguments (cl : closure)
    (cls : positive) (co : pyclass) (a : args) (w : world)
    (name module : string) (code : body) (obj : value)
    (h1 : gmap positive instance) (ws0 : list warning) :
  classes w !! cls = Some co ->
  tp_init_is_object_init (classes w) cls = true ->
  getattr___new__ (classes w) cls = Some (Prim name module code) ->
  excess_args (positional a) (keywords a) = true ->
  kw_get "self" (keywords a) = None ->
  code (Args (VClass cls :: positional a) (keywords a)) (instances w)
  = (Return obj, h1, ws0) ->
  type_of h1 obj = Some cls ->
  exists msg w_dec,
    craft_message (_deadline cl) (Named (c_name co) (c_module co))
      (replacement cl) (message cl) (_deadline cl) = Return msg
    /\ deprecated_class_decorator cl cls w = (Return cls, w_dec)
    /\ construct cls a w
       = (Return obj,
          World h1 (classes w) (warnings_log w ++ ws0) (sys_excepthook w))
    /\ construct cls a w_dec
       = (Raise (Exception TypeError
                   "object.__init__() takes exactly one argument (the instance to initialize)"),
          World h1 (classes w_dec)
            (warnings_log w ++ ws0 ++ [Warning (category cl) msg])
            (sys_excepthook w)).
Proof.
  intros Hcls Hinit Hnew Hex Hkw Hcode Ht. destruct w as [h0 cs l hk].
  cbn [classes instances warnings_log sys_excepthook] in *.
  pose proof (tp_init_getattr cs cls co Hcls Hinit) as Ho.
  destruct (craft_message_total (_deadline cl)
              (Named (c_name co) (c_module co)) (replacement cl) (message cl))
    as [msg Hm].
  set (f := new_init cl cls object___init__).
  set (cs' := setattr___init__ cls f cs).
  assert (Htn : tp_new_is_object_new cs cls = false).
  { revert Hnew. unfold getattr___new__, tp_new_is_object_new, getattr_mro.
    rewrite Hcls. cbn [mbind option_bind].
    destruct (mro_lookup cs (cls :: c_mro co) "__new__") as [[[]|]|];
      cbn; intros [=]; reflexivity. }
  assert (Hal : forall cs0, getattr___new__ cs0 cls
                            = Some (Prim name module code) ->
            allocate cls a (World h0 cs0 l hk)
            = (Return obj, World h1 cs0 (l ++ ws0) hk)).
  { intros cs0 H. unfold allocate. cbn [classes]. rewrite H.
    cbn [call]. unfold run_body. cbn [instances]. rewrite Hcode.
    reflexivity. }
  destruct obj as [| | | id | |]; try discriminate Ht.
  exists msg, (World h0 cs' l hk).
  split; [exact Hm|].
  split; [exact (deprecated_class_decorator_eq cl _ _ _ _ _ _ Ho)|].
  split.
  - rewrite (construct_instance cs cls a h0 l hk (VObj id) h1 (l ++ ws0)%list
               object___init__ (Hal cs Hnew) Ht Ho).
    cbn [call]. unfold object_init. cbn [positional keywords]. rewrite Hex.
    cbn [instances classes]. rewrite Ht, Hinit, Htn. reflexivity.
  - assert (Hnew' : getattr___new__ cs' cls = Some (Prim name module code))
      by (unfold cs'; rewrite (getattr___new___setattr cs cls co f cls Hcls);
          exact Hnew).
    rewrite (construct_instance cs' cls a h0 l hk (VObj id) h1 (l ++ ws0)%list
               f (Hal cs' Hnew') Ht (getattr_setattr_self cs cls co f Hcls)).
    unfold f at 1.
    rewrite (call_new_init cl cls object___init__ (VObj id) (positional a)
               (keywords a) h1 cs' (l ++ ws0)%list hk
               (Named (c_name co) (c_module co)) msg Hkw);
      [| unfold cs'; rewrite (class_names_setattr cs cls co f Hcls);
         exact (class_names_lookup _ _ _ Hcls)
       | exact Hm].
    cbn [call]. unfold object_init. cbn [positional keywords]. rewrite Hex.
    cbn [instances classes]. rewrite Ht.
    unfold cs', f.
    rewrite (tp_init_setattr_self cs cls co cl cls object___init__ Hcls).
    cbn. rewrite <- app_assoc. reflexivity.
Qed.

Lemma decorated_object_init_rejects_arguments_witness :
  classes MoreExamples.world2 !! 1%positive = Some MoreExamples.Point
  /\ tp_init_is_object_init (classes MoreExamples.world2) 1 = true
  /\ getattr___new__ (classes MoreExamples.world2) 1
     = Some MoreExamples.new_any
  /\ (construct 1 (Args [VInt 3] []) MoreExamples.world2).1
     = Return (VObj 1)
  /\ (construct 1 (Args [VInt 3] [])
        (deprecated_class_decorator Examples.spec_2020 1
           MoreExamples.world2).2).1
     = Raise (Exception TypeError
                "object.__init__() takes exactly one argument (the instance to initialize)").
Proof.
  split; [reflexivity|]. split; [reflexivity|]. split; [reflexivity|].
  assert (Ht : type_of {[ 1%positive := Instance 1 ∅ ]} (VObj 1)
               = Some 1%positive) by (vm_compute; reflexivity).
  destruct (decorated_object_init_rejects_arguments Examples.spec_2020 1
              MoreExamples.Point (Args [VInt 3] []) MoreExamples.world2
              "__new__" "pkg.old" _ (VObj 1)
              {[ 1%positive := Instance 1 ∅ ]} []
              eq_refl eq_refl eq_refl eq_refl eq_refl eq_refl Ht)
    as (msg & w_dec & _ & Hd & H0 & H1).
  rewrite H0, Hd. cbn [fst snd]. rewrite H1. split; reflexivity.
Defined.
